(** * TCP segment codec of the port scanner: a shallow embedding.

    Python integers are [Z]; [bytes] and [bytearray] values are [list byte];
    a raised exception is the [Raise] case of [result].  Every definition
    carries the name of the Python function it embeds. *)

From Stdlib Require Import String Ascii ZArith List Bool Lia.
From Stdlib.Strings Require Import Byte.
Import ListNotations.
Local Open Scope Z_scope.

(** ** Exceptions and the error monad *)

(** The exceptions the embedded code can raise.  [InvalidArgument],
    [MalformedOptions] and [LengthConstraintViolation] are raised by
    collaborators whose source is not available; their names are taken
    from the error taxonomy of the specification. *)
Inductive exn : Type :=
| IndexError
| StructError
| AssertionError
| OverflowError
| ValueError (msg : string)
| InvalidArgument
| MalformedOptions
| LengthConstraintViolation.

Inductive result (A : Type) : Type :=
| Ok (a : A)
| Raise (e : exn).
Arguments Ok {A} a.
Arguments Raise {A} e.

Definition bind {A B : Type} (r : result A) (k : A -> result B) : result B :=
  match r with
  | Ok a => k a
  | Raise e => Raise e
  end.

Notation "x <- r ;; k" := (bind r (fun x => k))
  (at level 61, r at next level, right associativity).
Notation "r ;;; k" := (bind r (fun _ => k))
  (at level 61, right associativity).

(** [assert cond] *)
Definition py_assert (cond : bool) : result unit :=
  if cond then Ok tt else Raise AssertionError.

Definition is_ok {A : Type} (r : result A) : bool :=
  match r with Ok _ => true | Raise _ => false end.

(** ** Bytes *)

Definition byte_to_Z (b : byte) : Z := Z.of_N (Byte.to_N b).

(** The byte whose value is [z mod 256]. *)
Definition byte_of_Z (z : Z) : byte :=
  match Byte.of_N (Z.to_N (z mod 256)) with
  | Some b => b
  | None => x00
  end.

(** [int.to_bytes(n, byteorder="big")] on a value already known to fit. *)
Fixpoint be_bytes (n : nat) (v : Z) : list byte :=
  match n with
  | O => []
  | S n' => be_bytes n' (Z.shiftr v 8) ++ [byte_of_Z v]
  end.

(** [v.to_bytes(n, byteorder="big")] *)
Definition int_to_bytes (n : nat) (v : Z) : result (list byte) :=
  if (0 <=? v) && (v <? 2 ^ (8 * Z.of_nat n))
  then Ok (be_bytes n v)
  else Raise OverflowError.

(** [int.from_bytes(bs, byteorder="big")] *)
Definition be_value (bs : list byte) : Z :=
  fold_left (fun acc b => acc * 256 + byte_to_Z b) bs 0.

(** [bytearray(n)]: n zero bytes. *)
Definition bytearray (n : nat) : list byte := repeat x00 n.

(** [buf[i]] for a non-negative index. *)
Definition getitem (buf : list byte) (i : nat) : result Z :=
  match nth_error buf i with
  | Some b => Ok (byte_to_Z b)
  | None => Raise IndexError
  end.

(** [buf[i] = v] on a [bytearray]: the index has to be inside the buffer
    and the value a byte. *)
Fixpoint replace_nth (buf : list byte) (i : nat) (v : byte) : list byte :=
  match buf, i with
  | [], _ => []
  | _ :: t, O => v :: t
  | h :: t, S i' => h :: replace_nth t i' v
  end.

Definition setitem (buf : list byte) (i : nat) (v : Z) : result (list byte) :=
  if (length buf <=? i)%nat then Raise IndexError
  else if (0 <=? v) && (v <? 256) then Ok (replace_nth buf i (byte_of_Z v))
  else Raise (ValueError "byte must be in range(0, 256)").

(** [buf[:n]] with Python's treatment of a negative bound. *)
Definition slice_to (buf : list byte) (n : Z) : list byte :=
  if n <? 0
  then firstn (Z.to_nat (Z.max 0 (Z.of_nat (length buf) + n))) buf
  else firstn (Z.to_nat n) buf.

(** [buf[n:]] with Python's treatment of a negative bound. *)
Definition slice_from (buf : list byte) (n : Z) : list byte :=
  if n <? 0
  then skipn (Z.to_nat (Z.max 0 (Z.of_nat (length buf) + n))) buf
  else skipn (Z.to_nat n) buf.

(** [range(0, n, 2)] *)
Definition range_step2 (n : nat) : list nat :=
  map (fun j => (2 * j)%nat) (seq 0 (Nat.div2 (S n))).

(** ** The [struct] module, for the formats the codec uses *)

Module Struct.

(** Format characters: [H] unsigned 16 bit, [I] unsigned 32 bit,
    [B] unsigned 8 bit, [s n] a byte string of [n] bytes. *)
Inductive fmt : Type := H | I | B | s (n : nat).

Inductive arg : Type := AInt (v : Z) | ABytes (bs : list byte).

Definition width (f : fmt) : nat :=
  match f with H => 2 | I => 4 | B => 1 | s n => n end%nat.

Definition calcsize (fs : list fmt) : nat :=
  fold_right (fun f acc => (width f + acc)%nat) 0%nat fs.

Definition pack_uint (n : nat) (v : Z) : result (list byte) :=
  if (0 <=? v) && (v <? 2 ^ (8 * Z.of_nat n))
  then Ok (be_bytes n v)
  else Raise StructError.

(** A byte string is truncated or padded with zero bytes to the width. *)
Definition pack_bytes (n : nat) (bs : list byte) : list byte :=
  firstn n bs ++ repeat x00 (n - length bs).

Definition pack1 (f : fmt) (a : arg) : result (list byte) :=
  match f, a with
  | s n, ABytes bs => Ok (pack_bytes n bs)
  | s _, AInt _ => Raise StructError
  | _, AInt v => pack_uint (width f) v
  | _, ABytes _ => Raise StructError
  end.

(** [struct.pack("!...", *args)], network byte order, no padding. *)
Fixpoint pack (fs : list fmt) (args : list arg) : result (list byte) :=
  match fs, args with
  | [], [] => Ok []
  | f :: fs', a :: args' =>
      hd <- pack1 f a ;;
      tl <- pack fs' args' ;;
      Ok (hd ++ tl)
  | _, _ => Raise StructError
  end.

(** [struct.pack_into(fmt, buffer, 0, *args)]: the packed bytes replace
    the start of the buffer, which has to be large enough. *)
Definition pack_into (fs : list fmt) (buffer : list byte)
           (args : list arg) : result (list byte) :=
  packed <- pack fs args ;;
  if (length packed <=? length buffer)%nat
  then Ok (packed ++ skipn (length packed) buffer)
  else Raise StructError.

Definition unpack1 (f : fmt) (bs : list byte) : arg :=
  match f with
  | s _ => ABytes bs
  | _ => AInt (be_value bs)
  end.

Fixpoint unpack_fields (fs : list fmt) (bs : list byte) : list arg :=
  match fs with
  | [] => []
  | f :: fs' =>
      unpack1 f (firstn (width f) bs) :: unpack_fields fs' (skipn (width f) bs)
  end.

(** [struct.unpack("!...", bs)]: the buffer has to have exactly the
    size of the format. *)
Definition unpack (fs : list fmt) (bs : list byte) : result (list arg) :=
  if (length bs =? calcsize fs)%nat
  then Ok (unpack_fields fs bs)
  else Raise StructError.

(** [fields[i]] of an unpacked tuple, read as an integer. *)
Definition field (fields : list arg) (i : nat) : result Z :=
  match nth_error fields i with
  | Some (AInt v) => Ok v
  | Some (ABytes _) => Raise StructError
  | None => Raise IndexError
  end.

End Struct.

(** ** port_scanner/utils/utils.py *)

Module Utils.

Definition set_bit (num bit_mask : Z) (value : bool) : Z :=
  if value then Z.lor num bit_mask else Z.land num (Z.lnot bit_mask).

Definition is_bit_set (bits bit_mask : Z) : bool :=
  negb (Z.land bits bit_mask =? 0).

(** The body of the [for] loop of [calc_checksum] at index [i]. *)
Definition checksum_step (byte_buffer : list byte) (checksum : Z) (i : nat)
  : result Z :=
  hi <- getitem byte_buffer i ;;
  lo <- getitem byte_buffer (i + 1) ;;
  let paired_bytes := Z.shiftl hi 8 + lo in
  Ok (checksum + paired_bytes).

(** The [for] loop of [calc_checksum] over the given indices. *)
Fixpoint checksum_loop (byte_buffer : list byte) (checksum : Z)
         (indices : list nat) : result Z :=
  match indices with
  | [] => Ok checksum
  | i :: rest =>
      checksum' <- checksum_step byte_buffer checksum i ;;
      checksum_loop byte_buffer checksum' rest
  end.

Definition calc_checksum (byte_buffer : list byte) : result Z :=
  checksum <- checksum_loop byte_buffer 0 (range_step2 (length byte_buffer)) ;;
  let checksum := checksum + Z.shiftr checksum 16 in
  let checksum := Z.land (Z.lnot checksum) 0xffff in
  Ok checksum.

End Utils.

(** ** Python values seen by the comparison methods *)

(** What a method returning [bool] can hand back when a branch falls off
    the end of its body: [None]. *)
Inductive PyValue : Type :=
| PyNone
| PyBool (b : bool).

(** [bool(v)] *)
Definition truthy (v : PyValue) : bool :=
  match v with PyNone => false | PyBool b => b end.

(** [a and b] *)
Definition py_and (a b : PyValue) : PyValue :=
  if truthy a then b else a.

(** [s.strip()]: white space is removed at both ends. *)
Definition isspace (c : ascii) : bool :=
  let n := nat_of_ascii c in
  ((9 <=? n) && (n <=? 13) || (28 <=? n) && (n <=? 32)
   || (n =? 133) || (n =? 160))%nat.

Fixpoint lstrip (s : string) : string :=
  match s with
  | EmptyString => EmptyString
  | String c s' => if isspace c then lstrip s' else s
  end.

Fixpoint rstrip (s : string) : string :=
  match s with
  | EmptyString => EmptyString
  | String c s' =>
      match rstrip s' with
      | EmptyString => if isspace c then EmptyString else String c EmptyString
      | r => String c r
      end
  end.

Definition strip (s : string) : string := rstrip (lstrip s).

(** ** Data model *)

(** [TcpControlBits]: a [BitFlags] object, whose state is one integer. *)
Record TcpControlBits : Type := mkTcpControlBits { flags : Z }.

(** Modelled from the spec: the class [TcpOptions] is not among the
    sources.  Section 3 gives an option as a tagged variant, [EndOfList],
    [NoOp] or [Sized] with a kind byte and 32-bit values; section 4.3 adds
    that an option of a kind the codec does not interpret is kept as its
    kind and raw value bytes, which is [Unknown]. *)
Inductive TcpOption : Type :=
| EndOfList
| NoOp
| Sized (kind : byte) (values : list Z)
| Unknown (kind : byte) (raw : list byte).

Definition TcpOptions : Type := list TcpOption.

(** Modelled from the spec: the class [IpPacket] is not among the sources.
    Section 6 lists what the lower layer exposes: source and destination
    address bytes and a protocol number. *)
Record IpPacket : Type := mkIpPacket {
  source_addr_raw : list byte;
  dest_addr_raw : list byte;
  protocol : Z
}.

(** Modelled from the spec: the base class [Packet] is not among the
    sources.  A link to a neighbouring layer is unset ([None]), an
    [IpPacket], or a packet of another class. *)
Inductive Layer : Type :=
| NoLayer
| IpLayer (ip : IpPacket)
| OtherLayer (name : string).

(** The attributes of a [TcpPacket] instance: the private attributes set
    by [__init__] and the two links of the [Packet] base class. *)
Record TcpPacket : Type := mkTcpPacket {
  __source_port : Z;
  __dest_port : Z;
  __sequence_number : Z;
  __ack_number : Z;
  __flags : TcpControlBits;
  __win_size : Z;
  __urg_pointer : Z;
  __options : TcpOptions;
  _payload : list byte;
  underlying_packet : Layer;
  upper_layer : Layer
}.

(** The objects a comparison can be handed as its [other] operand. *)
Inductive PyObject : Type :=
| ObjNone
| ObjInt (z : Z)
| ObjStr (s : string)
| ObjBytes (bs : list byte)
| ObjTcpControlBits (x : TcpControlBits)
| ObjTcpPacket (p : TcpPacket).

(** *** Structural equality of the collaborators' values *)

(** Modelled from the spec: the [__eq__] methods of [TcpOptions],
    [IpPacket] and [Packet] are not among the sources.  Section 4.5:
    equality is structural, a comparison of values and not of identity,
    also for the packet a link refers to. *)

Fixpoint list_eqb {A : Type} (eqb : A -> A -> bool) (l1 l2 : list A) : bool :=
  match l1, l2 with
  | [], [] => true
  | a :: l1', b :: l2' => eqb a b && list_eqb eqb l1' l2'
  | _, _ => false
  end.

Definition bytes_eqb : list byte -> list byte -> bool := list_eqb Byte.eqb.

Definition TcpOption_eqb (a b : TcpOption) : bool :=
  match a, b with
  | EndOfList, EndOfList => true
  | NoOp, NoOp => true
  | Sized k1 v1, Sized k2 v2 => Byte.eqb k1 k2 && list_eqb Z.eqb v1 v2
  | Unknown k1 r1, Unknown k2 r2 => Byte.eqb k1 k2 && bytes_eqb r1 r2
  | _, _ => false
  end.

Definition IpPacket_eqb (a b : IpPacket) : bool :=
  bytes_eqb (source_addr_raw a) (source_addr_raw b)
  && bytes_eqb (dest_addr_raw a) (dest_addr_raw b)
  && (protocol a =? protocol b).

Definition Layer_eqb (a b : Layer) : bool :=
  match a, b with
  | NoLayer, NoLayer => true
  | IpLayer x, IpLayer y => IpPacket_eqb x y
  | OtherLayer x, OtherLayer y => String.eqb x y
  | _, _ => false
  end.

(** ** Bit-flag container *)

(** Modelled from the spec: the class [BitFlags] is not among the sources.
    Section 4.1: a new container has all bits clear; [set(mask, value)]
    ors the mask in when the value is true and ands its complement in
    when it is false; [isSet(mask)] tests the bits.  The two operations
    are those of [Utils]. *)
Module BitFlags.

Definition __init__ : Z := 0.

Definition set_flag (flags bit_mask : Z) (value : bool) : Z :=
  Utils.set_bit flags bit_mask value.

Definition is_flag_set (flags bit_mask : Z) : bool :=
  Utils.is_bit_set flags bit_mask.

End BitFlags.

(** ** nally/core/layers/transport/tcp/tcp_control_bits.py *)

Module TcpControlBits.

Definition NS : Z := 256.
Definition CWR : Z := 128.
Definition ECE : Z := 64.
Definition URG : Z := 32.
Definition ACK : Z := 16.
Definition PSH : Z := 8.
Definition RST : Z := 4.
Definition SYN : Z := 2.
Definition FIN : Z := 1.

Definition __init__ (ns cwr ece urg ack psh rst syn fin : bool)
  : TcpControlBits :=
  let f := BitFlags.__init__ in
  let f := BitFlags.set_flag f NS ns in
  let f := BitFlags.set_flag f CWR cwr in
  let f := BitFlags.set_flag f ECE ece in
  let f := BitFlags.set_flag f URG urg in
  let f := BitFlags.set_flag f ACK ack in
  let f := BitFlags.set_flag f PSH psh in
  let f := BitFlags.set_flag f RST rst in
  let f := BitFlags.set_flag f SYN syn in
  let f := BitFlags.set_flag f FIN fin in
  mkTcpControlBits f.

Definition from_int (bits : Z) : TcpControlBits :=
  let is_flag_set := Utils.is_bit_set in
  __init__
    (is_flag_set bits NS)
    (is_flag_set bits CWR)
    (is_flag_set bits ECE)
    (is_flag_set bits URG)
    (is_flag_set bits ACK)
    (is_flag_set bits PSH)
    (is_flag_set bits RST)
    (is_flag_set bits SYN)
    (is_flag_set bits FIN).

Definition ns (self : TcpControlBits) := BitFlags.is_flag_set (flags self) NS.
Definition cwr (self : TcpControlBits) := BitFlags.is_flag_set (flags self) CWR.
Definition ece (self : TcpControlBits) := BitFlags.is_flag_set (flags self) ECE.
Definition urg (self : TcpControlBits) := BitFlags.is_flag_set (flags self) URG.
Definition ack (self : TcpControlBits) := BitFlags.is_flag_set (flags self) ACK.
Definition psh (self : TcpControlBits) := BitFlags.is_flag_set (flags self) PSH.
Definition rst (self : TcpControlBits) := BitFlags.is_flag_set (flags self) RST.
Definition syn (self : TcpControlBits) := BitFlags.is_flag_set (flags self) SYN.
Definition fin (self : TcpControlBits) := BitFlags.is_flag_set (flags self) FIN.

(** No [else] branch: an operand of another class gives [None]. *)
Definition __eq__ (self : TcpControlBits) (other : PyObject) : PyValue :=
  match other with
  | ObjTcpControlBits other => PyBool (flags self =? flags other)
  | _ => PyNone
  end.

Definition __str__ (self : TcpControlBits) : string :=
  let flags_str := ""%string in
  let flags_str := if ns self then (flags_str ++ "ns ")%string else flags_str in
  let flags_str := if cwr self then (flags_str ++ "cwr ")%string else flags_str in
  let flags_str := if ece self then (flags_str ++ "ece ")%string else flags_str in
  let flags_str := if urg self then (flags_str ++ "urg ")%string else flags_str in
  let flags_str := if ack self then (flags_str ++ "ack ")%string else flags_str in
  let flags_str := if psh self then (flags_str ++ "psh ")%string else flags_str in
  let flags_str := if rst self then (flags_str ++ "rst ")%string else flags_str in
  let flags_str := if syn self then (flags_str ++ "syn ")%string else flags_str in
  let flags_str := if fin self then (flags_str ++ "fin")%string else flags_str in
  strip flags_str.

End TcpControlBits.

(** ** TCP options codec *)

(** Modelled from the spec: the class [TcpOptions] is not among the
    sources.  Section 4.3, encode: a single tag byte for [EndOfList] and
    [NoOp]; for a sized option the tag byte, a length byte equal to 2 plus
    the byte length of the value, then each value as 4 big-endian bytes;
    [NoOp] bytes are appended until the length is a multiple of 4.
    Decode: 0 is [EndOfList] and the scan stops; 1 is [NoOp]; any other
    byte is a kind followed by a length byte L, which has to be at least 2
    and must not run past the end of the slice; the L-2 value bytes are
    grouped into 32-bit big-endian words when the kind has a fixed word
    arity (Timestamps, kind 8, two words) and are kept as they are
    otherwise. *)
Module TcpOptions.

Definition END_OF_OPTION_LIST : byte := x00.
Definition NOP : byte := x01.
Definition TIMESTAMPS : byte := x08.

Definition word_arity (kind : byte) : option nat :=
  if Byte.eqb kind TIMESTAMPS then Some 2%nat else None.

Fixpoint pack_values (values : list Z) : result (list byte) :=
  match values with
  | [] => Ok []
  | v :: vs =>
      w <- Struct.pack_uint 4 v ;;
      ws <- pack_values vs ;;
      Ok (w ++ ws)
  end.

Definition sized_to_bytes (kind : byte) (value : list byte)
  : result (list byte) :=
  len <- Struct.pack_uint 1 (2 + Z.of_nat (length value)) ;;
  Ok (kind :: len ++ value).

Definition option_to_bytes (o : TcpOption) : result (list byte) :=
  match o with
  | EndOfList => Ok [END_OF_OPTION_LIST]
  | NoOp => Ok [NOP]
  | Sized kind values =>
      value <- pack_values values ;;
      sized_to_bytes kind value
  | Unknown kind raw => sized_to_bytes kind raw
  end.

Fixpoint options_to_bytes (opts : TcpOptions) : result (list byte) :=
  match opts with
  | [] => Ok []
  | o :: rest =>
      b <- option_to_bytes o ;;
      bs <- options_to_bytes rest ;;
      Ok (b ++ bs)
  end.

(** The padding that brings [n] bytes to a multiple of 4. *)
Definition padding (pad : byte) (n : nat) : list byte :=
  repeat pad ((4 - n mod 4) mod 4)%nat.

(** Encoding with a chosen padding byte; the spec leaves the choice
    between [NoOp] and [EndOfList] to the implementation. *)
Definition to_bytes_padded (pad : byte) (self : TcpOptions)
  : result (list byte) :=
  raw <- options_to_bytes self ;;
  Ok (raw ++ padding pad (length raw)).

Definition to_bytes (self : TcpOptions) : result (list byte) :=
  to_bytes_padded NOP self.

Fixpoint words (bs : list byte) : list Z :=
  match bs with
  | a :: b :: c :: d :: rest => be_value [a; b; c; d] :: words rest
  | _ => []
  end.

Definition make_option (kind : byte) (value : list byte) : TcpOption :=
  match word_arity kind with
  | Some n =>
      if (length value =? 4 * n)%nat
      then Sized kind (words value)
      else Unknown kind value
  | None => Unknown kind value
  end.

(** The scan; every step consumes at least one byte, so [fuel] equal to
    the length of the slice is never used up before the slice is. *)
Fixpoint decode (fuel : nat) (bs : list byte) : result TcpOptions :=
  match fuel, bs with
  | _, [] => Ok []
  | O, _ :: _ => Raise MalformedOptions
  | S fuel', kind :: rest =>
      if Byte.eqb kind END_OF_OPTION_LIST then Ok [EndOfList]
      else if Byte.eqb kind NOP then
        tl <- decode fuel' rest ;;
        Ok (NoOp :: tl)
      else
        match rest with
        | [] => Raise MalformedOptions
        | len :: rest' =>
            let L := byte_to_Z len in
            if L <? 2 then Raise MalformedOptions
            else if Z.of_nat (length rest') <? L - 2
            then Raise MalformedOptions
            else
              let n := Z.to_nat (L - 2) in
              tl <- decode fuel' (skipn n rest') ;;
              Ok (make_option kind (firstn n rest') :: tl)
        end
  end.

Definition from_bytes (bytes_ : list byte) : result TcpOptions :=
  decode (length bytes_) bytes_.

Definition __eq__ (self other : TcpOptions) : PyValue :=
  PyBool (list_eqb TcpOption_eqb self other).

End TcpOptions.

(** ** The Internet checksum as the specification words it *)

(** Section 4.4: the input is read as 16-bit big-endian words, a last
    single byte being padded with a zero low byte; the words are summed;
    the high 16 bits of the sum are added back into the low 16 bits
    until no carry remains; the result is the complement of the low 16
    bits. *)

(** The sum of the 16-bit big-endian words of the input; a last single
    byte is the high byte of a word whose low byte is zero. *)
Fixpoint word_sum (bs : list byte) : Z :=
  match bs with
  | [] => 0
  | [hi] => Z.shiftl (byte_to_Z hi) 8
  | hi :: lo :: rest => (Z.shiftl (byte_to_Z hi) 8 + byte_to_Z lo) + word_sum rest
  end.

(** The high 16 bits are added back into the low 16 bits until no carry
    remains.  Every fold of a value above 65535 lowers it by at least
    65535, which bounds the number of folds. *)
Fixpoint fold_carry (fuel : nat) (acc : Z) : Z :=
  match fuel with
  | O => acc
  | S fuel' =>
      if Z.shiftr acc 16 =? 0 then acc
      else fold_carry fuel' (Z.land acc 0xffff + Z.shiftr acc 16)
  end.

Definition ones_complement_sum (bs : list byte) : Z :=
  let acc := word_sum bs in
  fold_carry (S (Z.to_nat (acc / 65535))) acc.

Definition internet_checksum (bs : list byte) : Z :=
  Z.land (Z.lnot (ones_complement_sum bs)) 0xffff.

(** ** The length constraint of the medium *)

(** Modelled from the spec: the bounds of [validate_packet_length] are
    not among the sources.  Section 3: the serialized length has to
    satisfy a minimum segment size and must not exceed the medium's
    maximum; the two bounds are left as a parameter. *)
Record LengthConstraint : Type := mkLengthConstraint {
  min_length : Z;
  max_length : Z
}.

Definition length_allowed (medium : LengthConstraint) (n : nat) : bool :=
  (min_length medium <=? Z.of_nat n) && (Z.of_nat n <=? max_length medium).

(** ** port_scanner/layers/tcp/tcp_utils.py *)

(** Modelled from the spec: the class [TcpUtils] is not among the sources.
    The header is 5 words of 32 bits, 20 bytes (section 4.5); a port has
    to lie in 0..65535, otherwise the construction fails with an
    invalid-argument error (sections 4.5 and 7); the validated length is
    handed back or the call fails (section 6); the checksum is the
    checksum engine of section 4.4, which pads an odd input and folds
    until no carry remains, applied to pseudo-header, header, options
    and payload in this order (section 4.5, step 6). *)
Module TcpUtils.

Definition TCP_HEADER_LENGTH : Z := 5.
Definition TCP_HEADER_LENGTH_BYTES : Z := 20.

Definition validate_port_num (port_num : Z) : result Z :=
  if (0 <=? port_num) && (port_num <=? 65535)
  then Ok port_num
  else Raise InvalidArgument.

Definition validate_packet_length (medium : LengthConstraint)
           (packet : list byte) : result (list byte) :=
  if length_allowed medium (length packet)
  then Ok packet
  else Raise LengthConstraintViolation.

Definition calc_tcp_checksum (pseudo_header header rest : list byte)
  : result Z :=
  Ok (internet_checksum (pseudo_header ++ header ++ rest)).

End TcpUtils.

(** ** port_scanner/layers/tcp/tcp_packet.py *)

Module LayersTcp.
Section TcpPacket.

Variable medium : LengthConstraint.

Definition TCP_HEADER_FORMAT : list Struct.fmt :=
  [Struct.H; Struct.H; Struct.I; Struct.I;
   Struct.H; Struct.H; Struct.H; Struct.H].
Definition TCP_PSEUDO_HEADER_FORMAT : list Struct.fmt :=
  [Struct.s 4; Struct.s 4; Struct.B; Struct.B; Struct.H].

Definition __init__ (source_port dest_port sequence_number ack_number : Z)
           (flags : TcpControlBits) (win_size urg_pointer : Z)
           (options : TcpOptions) (payload : list byte) : result TcpPacket :=
  source_port <- TcpUtils.validate_port_num source_port ;;
  dest_port <- TcpUtils.validate_port_num dest_port ;;
  Ok {| __source_port := source_port;
        __dest_port := dest_port;
        __sequence_number := sequence_number;
        __ack_number := ack_number;
        __flags := flags;
        __win_size := win_size;
        __urg_pointer := urg_pointer;
        __options := options;
        _payload := payload;
        underlying_packet := NoLayer;
        upper_layer := NoLayer |}.

Definition __get_pseudo_header (self : TcpPacket) (segment_len : Z)
  : result (list byte) :=
  match underlying_packet self with
  | IpLayer ip_packet =>
      Struct.pack TCP_PSEUDO_HEADER_FORMAT
        [Struct.ABytes (source_addr_raw ip_packet);
         Struct.ABytes (dest_addr_raw ip_packet);
         Struct.AInt 0;
         Struct.AInt (protocol ip_packet);
         Struct.AInt segment_len]
  | _ => Raise (ValueError "Underlying packet should be IpPacket instance")
  end.

Definition to_bytes (self : TcpPacket) : result (list byte) :=
  options_bytes <- TcpOptions.to_bytes (__options self) ;;
  py_assert (Z.of_nat (length options_bytes) mod 4 =? 0) ;;;
  let data_offset :=
    TcpUtils.TCP_HEADER_LENGTH + Z.of_nat (length options_bytes) / 4 in
  let data_offset_flags :=
    Z.lor (Z.shiftl data_offset 12) (flags (__flags self)) in
  let header_fields :=
    [Struct.AInt (__source_port self);
     Struct.AInt (__dest_port self);
     Struct.AInt (__sequence_number self);
     Struct.AInt (__ack_number self);
     Struct.AInt data_offset_flags;
     Struct.AInt (__win_size self);
     Struct.AInt 0;
     Struct.AInt (__urg_pointer self)] in
  let header_buffer := bytearray (Z.to_nat TcpUtils.TCP_HEADER_LENGTH_BYTES) in
  header_buffer <- Struct.pack_into TCP_HEADER_FORMAT header_buffer header_fields ;;
  pseudo_header <-
    __get_pseudo_header self (data_offset * 4 + Z.of_nat (length (_payload self))) ;;
  checksum <-
    TcpUtils.calc_tcp_checksum pseudo_header header_buffer
      (options_bytes ++ _payload self) ;;
  checksum_bytes <- int_to_bytes 2 checksum ;;
  c0 <- getitem checksum_bytes 0 ;;
  header_buffer <- setitem header_buffer 16 c0 ;;
  c1 <- getitem checksum_bytes 1 ;;
  header_buffer <- setitem header_buffer 17 c1 ;;
  TcpUtils.validate_packet_length medium
    (header_buffer ++ options_bytes ++ _payload self).

Definition from_bytes (packet_bytes : list byte) : result TcpPacket :=
  let header_bytes := slice_to packet_bytes TcpUtils.TCP_HEADER_LENGTH_BYTES in
  let payload_and_options :=
    slice_from packet_bytes TcpUtils.TCP_HEADER_LENGTH_BYTES in
  header_fields <- Struct.unpack TCP_HEADER_FORMAT header_bytes ;;
  source_port <- Struct.field header_fields 0 ;;
  dest_port <- Struct.field header_fields 1 ;;
  seq_num <- Struct.field header_fields 2 ;;
  ack_num <- Struct.field header_fields 3 ;;
  data_offset_flags <- Struct.field header_fields 4 ;;
  win_size <- Struct.field header_fields 5 ;;
  urg_pointer <- Struct.field header_fields 7 ;;
  let data_offset := Z.shiftr data_offset_flags 12 in
  let reserved_bits := Z.land (Z.shiftr data_offset_flags 9) 7 in
  (if negb (reserved_bits =? 0)
   then Raise (ValueError "Reserved bits should be set to zero")
   else Ok tt) ;;;
  let flags := TcpControlBits.from_int (Z.land data_offset_flags 511) in
  let options_len := (data_offset - TcpUtils.TCP_HEADER_LENGTH) * 4 in
  options <- TcpOptions.from_bytes (slice_to payload_and_options options_len) ;;
  let payload := slice_from payload_and_options options_len in
  __init__ source_port dest_port seq_num ack_num flags win_size urg_pointer
    options payload.

Definition source_port (self : TcpPacket) : Z := __source_port self.
Definition dest_port (self : TcpPacket) : Z := __dest_port self.
Definition sequence_number (self : TcpPacket) : Z := __sequence_number self.
Definition ack_number (self : TcpPacket) : Z := __ack_number self.
Definition flags (self : TcpPacket) : TcpControlBits := __flags self.
Definition win_size (self : TcpPacket) : Z := __win_size self.
Definition urg_pointer (self : TcpPacket) : Z := __urg_pointer self.
Definition options (self : TcpPacket) : TcpOptions := __options self.
(** Inherited from [Packet]. *)
Definition payload (self : TcpPacket) : list byte := _payload self.

(** No [else] branch: an operand of another class gives [None]. *)
Definition __eq__ (self : TcpPacket) (other : PyObject) : PyValue :=
  match other with
  | ObjTcpPacket other =>
      py_and (py_and (py_and (py_and (py_and (py_and (py_and (py_and (py_and
        (PyBool (dest_port self =? dest_port other))
        (PyBool (source_port self =? source_port other)))
        (PyBool (bytes_eqb (payload self) (payload other))))
        (PyBool (sequence_number self =? sequence_number other)))
        (PyBool (ack_number self =? ack_number other)))
        (TcpControlBits.__eq__ (flags self) (ObjTcpControlBits (flags other))))
        (PyBool (win_size self =? win_size other)))
        (PyBool (urg_pointer self =? urg_pointer other)))
        (TcpOptions.__eq__ (options self) (options other)))
        (PyBool (Layer_eqb (underlying_packet self) (underlying_packet other)))
  | _ => PyNone
  end.

End TcpPacket.
End LayersTcp.

(** ** port_scanner/layers/transport/transport_layer_utils.py *)

(** Modelled from the spec: the class [TransportLayerUtils] is not among
    the sources.  Port and length validation as for [TcpUtils]; the
    pseudo-header is built from the packet's underlying lower-layer
    packet: source address, destination address, a zero byte, the
    protocol number and the segment length as a 16-bit value (section 4.5,
    step 5); without such a packet the serialization fails (section 7). *)
Module TransportLayerUtils.

Definition PSEUDO_HEADER_FORMAT : list Struct.fmt :=
  [Struct.s 4; Struct.s 4; Struct.B; Struct.B; Struct.H].

Definition validate_port_num (port_num : Z) : result Z :=
  if (0 <=? port_num) && (port_num <=? 65535)
  then Ok port_num
  else Raise InvalidArgument.

Definition validate_packet_length (medium : LengthConstraint)
           (packet : list byte) : result (list byte) :=
  if length_allowed medium (length packet)
  then Ok packet
  else Raise LengthConstraintViolation.

Definition get_pseudo_header (packet : TcpPacket) (segment_len : Z)
  : result (list byte) :=
  match underlying_packet packet with
  | IpLayer ip_packet =>
      Struct.pack PSEUDO_HEADER_FORMAT
        [Struct.ABytes (source_addr_raw ip_packet);
         Struct.ABytes (dest_addr_raw ip_packet);
         Struct.AInt 0;
         Struct.AInt (protocol ip_packet);
         Struct.AInt segment_len]
  | _ => Raise (ValueError "Underlying packet should be IpPacket instance")
  end.

End TransportLayerUtils.

(** ** port_scanner/layers/transport/tcp/tcp_packet.py *)

(** The [TcpUtils] of this package is not among the sources either; its
    two header-length constants are those of the specification, as in
    the module [TcpUtils] above. *)
Module LayersTransportTcp.
Section TcpPacket.

Variable medium : LengthConstraint.

Definition TCP_HEADER_FORMAT : list Struct.fmt :=
  [Struct.H; Struct.H; Struct.I; Struct.I;
   Struct.H; Struct.H; Struct.H; Struct.H].

Definition __init__ (source_port dest_port sequence_number ack_number : Z)
           (flags : TcpControlBits) (win_size urg_pointer : Z)
           (options : TcpOptions) (payload : list byte) : result TcpPacket :=
  source_port <- TransportLayerUtils.validate_port_num source_port ;;
  dest_port <- TransportLayerUtils.validate_port_num dest_port ;;
  Ok {| __source_port := source_port;
        __dest_port := dest_port;
        __sequence_number := sequence_number;
        __ack_number := ack_number;
        __flags := flags;
        __win_size := win_size;
        __urg_pointer := urg_pointer;
        __options := options;
        _payload := payload;
        underlying_packet := NoLayer;
        upper_layer := NoLayer |}.

Definition to_bytes (self : TcpPacket) : result (list byte) :=
  options_bytes <- TcpOptions.to_bytes (__options self) ;;
  py_assert (Z.of_nat (length options_bytes) mod 4 =? 0) ;;;
  let data_offset :=
    TcpUtils.TCP_HEADER_LENGTH + Z.of_nat (length options_bytes) / 4 in
  let data_offset_flags :=
    Z.lor (Z.shiftl data_offset 12) (flags (__flags self)) in
  let header_fields :=
    [Struct.AInt (__source_port self);
     Struct.AInt (__dest_port self);
     Struct.AInt (__sequence_number self);
     Struct.AInt (__ack_number self);
     Struct.AInt data_offset_flags;
     Struct.AInt (__win_size self);
     Struct.AInt 0;
     Struct.AInt (__urg_pointer self)] in
  let header_buffer := bytearray (Z.to_nat TcpUtils.TCP_HEADER_LENGTH_BYTES) in
  header_buffer <- Struct.pack_into TCP_HEADER_FORMAT header_buffer header_fields ;;
  pseudo_header <-
    TransportLayerUtils.get_pseudo_header self
      (data_offset * 4 + Z.of_nat (length (_payload self))) ;;
  checksum <-
    Utils.calc_checksum
      (pseudo_header ++ header_buffer ++ options_bytes ++ _payload self) ;;
  checksum_bytes <- int_to_bytes 2 checksum ;;
  c0 <- getitem checksum_bytes 0 ;;
  header_buffer <- setitem header_buffer 16 c0 ;;
  c1 <- getitem checksum_bytes 1 ;;
  header_buffer <- setitem header_buffer 17 c1 ;;
  TransportLayerUtils.validate_packet_length medium
    (header_buffer ++ options_bytes ++ _payload self).

Definition from_bytes (packet_bytes : list byte) : result TcpPacket :=
  let header_bytes := slice_to packet_bytes TcpUtils.TCP_HEADER_LENGTH_BYTES in
  let payload_and_options :=
    slice_from packet_bytes TcpUtils.TCP_HEADER_LENGTH_BYTES in
  header_fields <- Struct.unpack TCP_HEADER_FORMAT header_bytes ;;
  source_port <- Struct.field header_fields 0 ;;
  dest_port <- Struct.field header_fields 1 ;;
  seq_num <- Struct.field header_fields 2 ;;
  ack_num <- Struct.field header_fields 3 ;;
  data_offset_flags <- Struct.field header_fields 4 ;;
  win_size <- Struct.field header_fields 5 ;;
  urg_pointer <- Struct.field header_fields 7 ;;
  let data_offset := Z.shiftr data_offset_flags 12 in
  let reserved_bits := Z.land (Z.shiftr data_offset_flags 9) 7 in
  (if negb (reserved_bits =? 0)
   then Raise (ValueError "Reserved bits should be set to zero")
   else Ok tt) ;;;
  let flags := TcpControlBits.from_int (Z.land data_offset_flags 511) in
  let options_len := (data_offset - TcpUtils.TCP_HEADER_LENGTH) * 4 in
  options <- TcpOptions.from_bytes (slice_to payload_and_options options_len) ;;
  let payload := slice_from payload_and_options options_len in
  __init__ source_port dest_port seq_num ack_num flags win_size urg_pointer
    options payload.

Definition source_port (self : TcpPacket) : Z := __source_port self.
Definition dest_port (self : TcpPacket) : Z := __dest_port self.
Definition sequence_number (self : TcpPacket) : Z := __sequence_number self.
Definition ack_number (self : TcpPacket) : Z := __ack_number self.
Definition flags (self : TcpPacket) : TcpControlBits := __flags self.
Definition win_size (self : TcpPacket) : Z := __win_size self.
Definition urg_pointer (self : TcpPacket) : Z := __urg_pointer self.
Definition options (self : TcpPacket) : TcpOptions := __options self.
(** The attribute is [__payload] in this class. *)
Definition payload (self : TcpPacket) : list byte := _payload self.

(** No [else] branch: an operand of another class gives [None]. *)
Definition __eq__ (self : TcpPacket) (other : PyObject) : PyValue :=
  match other with
  | ObjTcpPacket other =>
      py_and (py_and (py_and (py_and (py_and (py_and (py_and (py_and (py_and
        (PyBool (dest_port self =? dest_port other))
        (PyBool (source_port self =? source_port other)))
        (PyBool (Layer_eqb (upper_layer self) (upper_layer other))))
        (PyBool (sequence_number self =? sequence_number other)))
        (PyBool (ack_number self =? ack_number other)))
        (TcpControlBits.__eq__ (flags self) (ObjTcpControlBits (flags other))))
        (PyBool (win_size self =? win_size other)))
        (PyBool (urg_pointer self =? urg_pointer other)))
        (TcpOptions.__eq__ (options self) (options other)))
        (PyBool (bytes_eqb (payload self) (payload other)))
  | _ => PyNone
  end.

End TcpPacket.
End LayersTransportTcp.

(** ** Definitions used to state the properties *)

(** *** The loop of the checksum, by recursion *)

(** The loop of [calc_checksum], by recursion on the buffer. *)
Fixpoint paired_sum (bs : list byte) (acc : Z) : result Z :=
  match bs with
  | [] => Ok acc
  | [_] => Raise IndexError
  | hi :: lo :: rest =>
      paired_sum rest (acc + (Z.shiftl (byte_to_Z hi) 8 + byte_to_Z lo))
  end.

(** *** The textual form of the flags as the specification words it *)

Definition declaration_order : list (Z * string) :=
  [(TcpControlBits.NS, "ns"); (TcpControlBits.CWR, "cwr");
   (TcpControlBits.ECE, "ece"); (TcpControlBits.URG, "urg");
   (TcpControlBits.ACK, "ack"); (TcpControlBits.PSH, "psh");
   (TcpControlBits.RST, "rst"); (TcpControlBits.SYN, "syn");
   (TcpControlBits.FIN, "fin")]%string.

(** The names of the flags that are set, in declaration order. *)
Definition set_flag_names (x : TcpControlBits) : list string :=
  map snd
    (filter (fun mf => BitFlags.is_flag_set (flags x) (fst mf)) declaration_order).

Fixpoint last_char (c : ascii) (s : string) : ascii :=
  match s with
  | EmptyString => c
  | String c' s' => last_char c' s'
  end.

(** Neither the first nor the last character is white space. *)
Definition no_outer_space (s : string) : bool :=
  match s with
  | EmptyString => true
  | String c s' => negb (isspace c) && negb (isspace (last_char c s'))
  end.

(** *** Reading the header of an input *)

(** [bytes.hex()] *)
Definition hex_digit (n : Z) : ascii :=
  if n <? 10 then ascii_of_nat (Z.to_nat (48 + n))
  else ascii_of_nat (Z.to_nat (87 + n)).

Fixpoint hex (bs : list byte) : string :=
  match bs with
  | [] => EmptyString
  | b :: rest =>
      String (hex_digit (byte_to_Z b / 16))
        (String (hex_digit (byte_to_Z b mod 16)) (hex rest))
  end.

(** The 16-bit offset/flags field, bytes 12 and 13 of the header, of an
    input that is long enough to have it. *)
Definition offset_flags_field (packet_bytes : list byte) : option Z :=
  match skipn 12 packet_bytes with
  | hi :: lo :: _ => Some (be_value [hi; lo])
  | _ => None
  end.

(** Bits 9, 10 and 11 of the field. *)
Definition reserved_bit_set (field : Z) : bool :=
  Z.testbit field 9 || Z.testbit field 10 || Z.testbit field 11.

(** The data offset: the top 4 bits of the field. *)
Definition data_offset_of (field : Z) : Z := Z.shiftr field 12.

Definition is_TcpControlBits (o : PyObject) : bool :=
  match o with ObjTcpControlBits _ => true | _ => false end.

Definition is_TcpPacket (o : PyObject) : bool :=
  match o with ObjTcpPacket _ => true | _ => false end.

(** *** Packets *)

(** A packet as [from_bytes] returns it: the parsed fields, no link to a
    neighbouring layer. *)
Definition parsed (p : TcpPacket) (options : TcpOptions) : TcpPacket :=
  {| __source_port := __source_port p;
     __dest_port := __dest_port p;
     __sequence_number := __sequence_number p;
     __ack_number := __ack_number p;
     __flags := __flags p;
     __win_size := __win_size p;
     __urg_pointer := __urg_pointer p;
     __options := options;
     _payload := _payload p;
     underlying_packet := NoLayer;
     upper_layer := NoLayer |}.

(** The options as they come back from the wire. *)
Definition options_on_the_wire (options : TcpOptions) : result TcpOptions :=
  options_bytes <- TcpOptions.to_bytes options ;;
  TcpOptions.from_bytes options_bytes.

(** The flags of a packet built by [TcpControlBits]: 9 bits. *)
Definition valid_flags (p : TcpPacket) : Prop :=
  0 <= flags (__flags p) < 512.

(** The packet of the test [test_to_bytes]. *)
Definition scenario_options : TcpOptions :=
  [NoOp; NoOp; Sized TcpOptions.TIMESTAMPS [3252488245; 365238493]].

Definition scenario_ip : IpPacket :=
  {| source_addr_raw := [xc0; xa8; x01; x20];
     dest_addr_raw := [x23; xa0; xf0; x3c];
     protocol := 6 |}.

Definition scenario_packet : TcpPacket :=
  {| __source_port := 59700;
     __dest_port := 443;
     __sequence_number := 1407506493;
     __ack_number := 3676709599;
     __flags :=
       TcpControlBits.__init__ false false false false true false false false false;
     __win_size := 501;
     __urg_pointer := 0;
     __options := scenario_options;
     _payload := [];
     underlying_packet := IpLayer scenario_ip;
     upper_layer := NoLayer |}.

Definition PACKET_DUMP_1 : string :=
  "e93401bb53e4d83ddb2622df801001f5915600000101080ac1dd083515c518dd".

(** A medium that allows every length from a bare header to 65535. *)
Definition ip_medium : LengthConstraint :=
  {| min_length := 20; max_length := 65535 |}.

(** [r] does not raise the invalid-argument error. *)
Definition not_invalid_argument {A : Type} (r : result A) : Prop :=
  r <> Raise InvalidArgument.

(** The comparisons the two [__eq__] methods have in common. *)
Definition same_fields (p q : TcpPacket) : bool :=
  (__dest_port p =? __dest_port q)
  && (__source_port p =? __source_port q)
  && (__sequence_number p =? __sequence_number q)
  && (__ack_number p =? __ack_number q)
  && (flags (__flags p) =? flags (__flags q))
  && (__win_size p =? __win_size q)
  && (__urg_pointer p =? __urg_pointer q)
  && list_eqb TcpOption_eqb (__options p) (__options q)
  && bytes_eqb (_payload p) (_payload q).


(** *** Options that come back from the wire unchanged *)

(** An option that the decoder reads back as it was written: a NoOp; a
    sized option of a kind with a fixed word arity, with that many
    32-bit values; an opaque option whose kind is neither of the two
    single-byte tags, whose value fits the length byte, and which the
    decoder does not group into words. *)
Definition wire_stable_option (o : TcpOption) : bool :=
  match o with
  | EndOfList => false
  | NoOp => true
  | Sized kind values =>
      match TcpOptions.word_arity kind with
      | Some n =>
          (length values =? n)%nat
          && forallb (fun v => (0 <=? v) && (v <? 4294967296)) values
      | None => false
      end
  | Unknown kind raw =>
      negb (Byte.eqb kind TcpOptions.END_OF_OPTION_LIST)
      && negb (Byte.eqb kind TcpOptions.NOP)
      && (length raw <=? 253)%nat
      && match TcpOptions.word_arity kind with
         | Some n => negb (length raw =? 4 * n)%nat
         | None => true
         end
  end.

(** A list of such options, in which EndOfList can only come last. *)
Fixpoint wire_stable (opts : TcpOptions) : bool :=
  match opts with
  | [] => true
  | [EndOfList] => true
  | o :: rest => wire_stable_option o && wire_stable rest
  end.

(** The encoded options fill whole 32-bit words: no padding is added. *)
Definition needs_no_padding (opts : TcpOptions) : Prop :=
  exists raw : list byte,
    TcpOptions.options_to_bytes opts = Ok raw /\ (length raw mod 4 = 0)%nat.



(** The bytes of the scenario, as the test has them. *)
Definition scenario_bytes : list byte :=
  [xe9; x34; x01; xbb; x53; xe4; xd8; x3d; xdb; x26; x22; xdf;
   x80; x10; x01; xf5; x91; x56; x00; x00; x01; x01; x08; x0a;
   xc1; xdd; x08; x35; x15; xc5; x18; xdd].



(** The bytes of a segment: the eight header fields in network byte
    order, with the checksum bytes [c0] and [c1], then the encoded
    options and the payload. *)
Definition segment_layout (p : TcpPacket) (options_bytes : list byte)
           (c0 c1 : byte) : list byte :=
  be_bytes 2 (__source_port p) ++ be_bytes 2 (__dest_port p)
  ++ be_bytes 4 (__sequence_number p) ++ be_bytes 4 (__ack_number p)
  ++ be_bytes 2 (Z.lor (Z.shiftl (5 + Z.of_nat (length options_bytes) / 4) 12)
                       (flags (__flags p)))
  ++ be_bytes 2 (__win_size p) ++ [c0; c1] ++ be_bytes 2 (__urg_pointer p)
  ++ options_bytes ++ _payload p.

(** The header fields of a packet fit the widths of the header format,
    for encoded options of the given length. *)
Definition header_fields_fit (p : TcpPacket) (options_bytes : list byte)
  : Prop :=
  0 <= __source_port p < 65536 /\ 0 <= __dest_port p < 65536 /\
  0 <= __sequence_number p < 4294967296 /\
  0 <= __ack_number p < 4294967296 /\
  0 <= Z.lor (Z.shiftl (5 + Z.of_nat (length options_bytes) / 4) 12)
             (flags (__flags p)) < 65536 /\
  0 <= __win_size p < 65536 /\ 0 <= __urg_pointer p < 65536.

(** * Properties *)

(** ** Bytes and big-endian values *)

Lemma byte_to_Z_range (b : byte) : 0 <= byte_to_Z b < 256.
Proof.
  unfold byte_to_Z. pose proof (Byte.to_N_bounded b) as Hb.
  split; [apply N2Z.is_nonneg | ].
  change 256 with (Z.of_N 256). apply N2Z.inj_lt. lia.
Qed.

Lemma byte_to_of_Z (z : Z) : byte_to_Z (byte_of_Z z) = z mod 256.
Proof.
  unfold byte_to_Z, byte_of_Z.
  assert (Hr : 0 <= z mod 256 < 256) by (apply Z.mod_pos_bound; lia).
  destruct (Byte.of_N (Z.to_N (z mod 256))) as [b|] eqn:E.
  - apply Byte.to_of_N in E. rewrite E. rewrite Z2N.id; lia.
  - apply Byte.of_N_None_iff in E. lia.
Qed.

Lemma byte_of_to_Z (b : byte) : byte_of_Z (byte_to_Z b) = b.
Proof.
  unfold byte_of_Z. rewrite Z.mod_small by apply byte_to_Z_range.
  unfold byte_to_Z. rewrite N2Z.id, Byte.of_to_N. reflexivity.
Qed.

Lemma be_bytes_length (n : nat) (v : Z) : length (be_bytes n v) = n.
Proof.
  revert v. induction n as [|n IH]; intros v; simpl; [reflexivity|].
  rewrite length_app, IH. simpl. lia.
Qed.

Lemma be_value_app (l1 l2 : list byte) :
  be_value (l1 ++ l2)
  = fold_left (fun acc b => acc * 256 + byte_to_Z b) l2 (be_value l1).
Proof. unfold be_value. apply fold_left_app. Qed.

Lemma be_value_be_bytes (n : nat) (v : Z) :
  0 <= v < 2 ^ (8 * Z.of_nat n) -> be_value (be_bytes n v) = v.
Proof.
  revert v. induction n as [|n IH]; intros v Hv.
  - simpl in *. unfold be_value. simpl. lia.
  - cbn [be_bytes]. rewrite be_value_app. cbn [fold_left].
    rewrite byte_to_of_Z, Z.shiftr_div_pow2 by lia.
    replace (8 * Z.of_nat (S n)) with (8 + 8 * Z.of_nat n) in Hv by lia.
    rewrite Z.pow_add_r in Hv by lia.
    change (2 ^ 8) with 256 in *.
    rewrite IH.
    + pose proof (Z.div_mod v 256 ltac:(lia)). lia.
    + split; [apply Z.div_pos; lia | apply Z.div_lt_upper_bound; lia].
Qed.

(** ** The checksum engine *)

Lemma getitem_app_right (pre bs : list byte) (i : nat) :
  getitem (pre ++ bs) (length pre + i) = getitem bs i.
Proof.
  unfold getitem. rewrite nth_error_app2 by lia.
  replace (length pre + i - length pre)%nat with i by lia. reflexivity.
Qed.

(** The indexed loop of [calc_checksum] walks the buffer two bytes at a
    time. *)
Lemma checksum_loop_paired (n : nat) :
  forall (bs pre : list byte) (acc : Z) (k : nat),
    (length bs <= n)%nat ->
    length pre = (2 * k)%nat ->
    Utils.checksum_loop (pre ++ bs) acc
      (map (fun j => (2 * j)%nat) (seq k (Nat.div2 (S (length bs)))))
    = paired_sum bs acc.
Proof.
  induction n as [|n IH]; intros bs pre acc k Hn Hk.
  - destruct bs; [reflexivity | simpl in Hn; lia].
  - destruct bs as [|hi [|lo rest]].
    + reflexivity.
    + cbn [length Nat.div2 seq map Utils.checksum_loop paired_sum].
      unfold Utils.checksum_step.
      rewrite <- Hk.
      replace (length pre) with (length pre + 0)%nat at 1 by lia.
      rewrite getitem_app_right. cbn [getitem nth_error bind].
      rewrite getitem_app_right. reflexivity.
    + cbn [length Nat.div2 seq map Utils.checksum_loop paired_sum].
      unfold Utils.checksum_step.
      rewrite <- Hk.
      replace (length pre) with (length pre + 0)%nat at 1 by lia.
      rewrite getitem_app_right. cbn [getitem nth_error bind].
      rewrite getitem_app_right. cbn [getitem nth_error bind].
      replace (pre ++ hi :: lo :: rest) with ((pre ++ [hi; lo]) ++ rest)
        by (rewrite <- app_assoc; reflexivity).
      apply IH.
      * simpl in Hn. lia.
      * rewrite length_app. simpl. lia.
Qed.

Lemma calc_checksum_paired (bs : list byte) :
  Utils.calc_checksum bs
  = (checksum <- paired_sum bs 0 ;;
     Ok (Z.land (Z.lnot (checksum + Z.shiftr checksum 16)) 0xffff)).
Proof.
  unfold Utils.calc_checksum, range_step2.
  pose proof (checksum_loop_paired (length bs) bs [] 0 0%nat) as H.
  cbn [app] in H. rewrite H; auto.
Qed.

Lemma paired_sum_even (n : nat) :
  forall (bs : list byte) (acc : Z),
    (length bs <= n)%nat ->
    Nat.even (length bs) = true ->
    paired_sum bs acc = Ok (acc + word_sum bs).
Proof.
  induction n as [|n IH]; intros bs acc Hn Hev.
  - destruct bs; [simpl; f_equal; lia | simpl in Hn; lia].
  - destruct bs as [|hi [|lo rest]].
    + simpl. f_equal. lia.
    + discriminate Hev.
    + cbn [paired_sum word_sum]. rewrite IH.
      * f_equal. lia.
      * simpl in Hn. lia.
      * exact Hev.
Qed.

Lemma paired_sum_odd (n : nat) :
  forall (bs : list byte) (acc : Z),
    (length bs <= n)%nat ->
    Nat.odd (length bs) = true ->
    paired_sum bs acc = Raise IndexError.
Proof.
  induction n as [|n IH]; intros bs acc Hn Hodd.
  - destruct bs; [discriminate Hodd | simpl in Hn; lia].
  - destruct bs as [|hi [|lo rest]].
    + discriminate Hodd.
    + reflexivity.
    + cbn [paired_sum]. apply IH; [simpl in Hn; lia | exact Hodd].
Qed.

(** What [calc_checksum] computes on an input of even length: the high
    part of the sum is added once, and the carry of that addition is
    cut off by the mask. *)
Lemma calc_checksum_even (bs : list byte) :
  Nat.even (length bs) = true ->
  Utils.calc_checksum bs
  = Ok (Z.land (Z.lnot (word_sum bs + Z.shiftr (word_sum bs) 16)) 0xffff).
Proof.
  intros Hev. rewrite calc_checksum_paired.
  rewrite (paired_sum_even (length bs)) by auto. reflexivity.
Qed.

Lemma word_sum_nonneg (bs : list byte) : 0 <= word_sum bs.
Proof.
  assert (H : forall n bs, (length bs <= n)%nat -> 0 <= word_sum bs).
  { clear bs. induction n as [|n IH]; intros bs Hn.
    - destruct bs; [simpl; lia | simpl in Hn; lia].
    - destruct bs as [|hi [|lo rest]]; cbn [word_sum].
      + lia.
      + rewrite Z.shiftl_mul_pow2 by lia. pose proof (byte_to_Z_range hi). lia.
      + rewrite Z.shiftl_mul_pow2 by lia.
        pose proof (byte_to_Z_range hi). pose proof (byte_to_Z_range lo).
        assert (0 <= word_sum rest) by (apply IH; simpl in Hn; lia). lia. }
  apply (H (length bs)). lia.
Qed.

Lemma land_ffff (x : Z) : Z.land x 0xffff = x mod 65536.
Proof. apply (Z.land_ones x 16). lia. Qed.

Lemma lnot_land_ffff (x : Z) :
  Z.land (Z.lnot x) 0xffff = 65535 - x mod 65536.
Proof.
  rewrite land_ffff. unfold Z.lnot.
  replace (Z.pred (- x)) with (65535 - x mod 65536 + (- (x / 65536) - 1) * 65536)
    by (pose proof (Z.div_mod x 65536 ltac:(lia)); lia).
  rewrite Z.mod_add by lia. apply Z.mod_small.
  pose proof (Z.mod_pos_bound x 65536 ltac:(lia)). lia.
Qed.

(** Folding leaves no carry: the fuel of [ones_complement_sum] is enough. *)
Lemma fold_carry_bound (fuel : nat) :
  forall acc, 0 <= acc <= 65535 * Z.of_nat fuel ->
              0 <= fold_carry fuel acc < 65536 /\
              fold_carry fuel acc mod 65535 = acc mod 65535.
Proof.
  induction fuel as [|fuel IH]; intros acc Hacc.
  - simpl in *. assert (acc = 0) by lia. subst. simpl. split; [lia | reflexivity].
  - cbn [fold_carry]. rewrite Z.shiftr_div_pow2 by lia. change (2 ^ 16) with 65536.
    destruct (Z.eqb_spec (acc / 65536) 0) as [E|E].
    + split; [|reflexivity].
      pose proof (Z.div_mod acc 65536 ltac:(lia)). pose proof (Z.mod_pos_bound acc 65536 ltac:(lia)). lia.
    + rewrite land_ffff.
      assert (0 < acc / 65536).
      { assert (0 <= acc / 65536) by (apply Z.div_pos; lia). lia. }
      pose proof (Z.div_mod acc 65536 ltac:(lia)). pose proof (Z.mod_pos_bound acc 65536 ltac:(lia)).
      destruct (IH (acc mod 65536 + acc / 65536)) as [Hb Hm]; [lia|].
      split; [exact Hb|]. rewrite Hm.
      replace acc with (acc mod 65536 + acc / 65536 + (acc / 65536) * 65535) at 3 by lia.
      rewrite Z.mod_add by lia. reflexivity.
Qed.

Lemma ones_complement_sum_no_carry (bs : list byte) :
  Z.shiftr (ones_complement_sum bs) 16 = 0.
Proof.
  unfold ones_complement_sum.
  pose proof (word_sum_nonneg bs) as Hs.
  destruct (fold_carry_bound (S (Z.to_nat (word_sum bs / 65535))) (word_sum bs))
    as [Hb _].
  - split; [lia|]. rewrite Nat2Z.inj_succ, Z2Nat.id by (apply Z.div_pos; lia).
    pose proof (Z.div_mod (word_sum bs) 65535 ltac:(lia)).
    pose proof (Z.mod_pos_bound (word_sum bs) 65535 ltac:(lia)). lia.
  - rewrite Z.shiftr_div_pow2 by lia. apply Z.div_small. exact Hb.
Qed.

Lemma calc_checksum_no_second_carry (bs : list byte) :
  Nat.even (length bs) = true ->
  word_sum bs mod 65536 + word_sum bs / 65536 < 65536 ->
  Utils.calc_checksum bs = Ok (internet_checksum bs).
Proof.
  intros Hev Hc. rewrite calc_checksum_even by exact Hev.
  unfold internet_checksum, ones_complement_sum.
  pose proof (word_sum_nonneg bs) as Hs.
  set (acc := word_sum bs) in *.
  rewrite !lnot_land_ffff. f_equal. f_equal.
  rewrite Z.shiftr_div_pow2 by lia. change (2 ^ 16) with 65536.
  pose proof (Z.div_mod acc 65536 ltac:(lia)) as Hdm.
  pose proof (Z.mod_pos_bound acc 65536 ltac:(lia)) as Hm.
  assert (Hq : 0 <= acc / 65536) by (apply Z.div_pos; lia).
  assert (Hcode : (acc + acc / 65536) mod 65536 = acc mod 65536 + acc / 65536).
  { replace (acc + acc / 65536)
      with (acc mod 65536 + acc / 65536 + (acc / 65536) * 65536) by lia.
    rewrite Z.mod_add by lia. apply Z.mod_small. lia. }
  assert (Hfold : fold_carry (S (Z.to_nat (acc / 65535))) acc
                  = acc mod 65536 + acc / 65536).
  { cbn [fold_carry]. rewrite Z.shiftr_div_pow2 by lia. change (2 ^ 16) with 65536.
    destruct (Z.eqb_spec (acc / 65536) 0) as [E|E].
    - lia.
    - rewrite land_ffff.
      assert (Hf : 1 <= acc / 65535) by (apply Z.div_le_lower_bound; lia).
      destruct (Z.to_nat (acc / 65535)) as [|fuel] eqn:Ef; [lia|].
      cbn [fold_carry]. rewrite Z.shiftr_div_pow2 by lia. change (2 ^ 16) with 65536.
      rewrite (Z.div_small (acc mod 65536 + acc / 65536)) by lia. reflexivity. }
  rewrite Hfold.
  first [ exact Hcode | rewrite Hcode; symmetry; apply Z.mod_small; lia ].
Qed.

(** X18: on an input of even length whose folded sum produces no second
    carry, [calc_checksum] is the Internet checksum. *)
Lemma calc_checksum_without_second_carry (bs : list byte) :
  Nat.even (length bs) = true ->
  word_sum bs mod 65536 + word_sum bs / 65536 < 65536 ->
  Utils.calc_checksum bs = Ok (internet_checksum bs).
Proof. exact (calc_checksum_no_second_carry bs). Qed.

Lemma internet_checksum_range (bs : list byte) :
  0 <= internet_checksum bs < 65536.
Proof.
  unfold internet_checksum. rewrite lnot_land_ffff.
  pose proof (Z.mod_pos_bound (ones_complement_sum bs) 65536 ltac:(lia)). lia.
Qed.

Lemma word_sum_zeros (n : nat) : word_sum (repeat x00 (2 * n)) = 0.
Proof.
  induction n as [|n IH]; [reflexivity|].
  replace (2 * S n)%nat with (S (S (2 * n))) by lia.
  cbn [repeat word_sum]. rewrite IH. reflexivity.
Qed.

(** X19: on an all-zero input of even length, the empty input
    included, the checksum is 0xFFFF. *)
Lemma calc_checksum_zeros (n : nat) :
  Utils.calc_checksum (repeat x00 (2 * n)) = Ok 0xffff.
Proof.
  rewrite calc_checksum_even.
  - rewrite word_sum_zeros. reflexivity.
  - rewrite repeat_length. rewrite Nat.even_mul. reflexivity.
Qed.

(** C3, at the input ff ff ff ff 00 01: the words sum to 0x1FFFF; adding
    the high part once gives 0x20000, whose low 16 bits are 0, so
    [calc_checksum] returns 0xFFFF, while folding until no carry remains
    gives 1 and the checksum 0xFFFE. *)
Theorem calc_checksum_loses_second_carry :
  Utils.calc_checksum [xff; xff; xff; xff; x00; x01] = Ok 0xffff /\
  word_sum [xff; xff; xff; xff; x00; x01] = 0x1ffff /\
  ones_complement_sum [xff; xff; xff; xff; x00; x01] = 1 /\
  internet_checksum [xff; xff; xff; xff; x00; x01] = 0xfffe.
Proof. repeat split; vm_compute; reflexivity. Qed.

(** C4: on every input of odd length [calc_checksum] raises [IndexError]
    at the read of [byte_buffer[i + 1]] for the last byte; no value is
    returned, whereas the input extended by a zero byte has a checksum,
    formed with the last byte as the high byte of the final word. *)
Theorem calc_checksum_odd_length_raises (bs : list byte) :
  Nat.odd (length bs) = true ->
  Utils.calc_checksum bs = Raise IndexError /\
  Utils.calc_checksum (bs ++ [x00])
  = Ok (Z.land (Z.lnot (word_sum bs + Z.shiftr (word_sum bs) 16)) 0xffff).
Proof.
  intros Hodd. split.
  - rewrite calc_checksum_paired.
    rewrite (paired_sum_odd (length bs)) by auto. reflexivity.
  - rewrite calc_checksum_even.
    + assert (Hw : forall n l, (length l <= n)%nat -> Nat.odd (length l) = true ->
                               word_sum (l ++ [x00]) = word_sum l).
      { clear. induction n as [|n IH]; intros l Hn Ho.
        - destruct l; [discriminate Ho | simpl in Hn; lia].
        - destruct l as [|hi [|lo rest]].
          + discriminate Ho.
          + cbn [app word_sum]. change (byte_to_Z x00) with 0. lia.
          + cbn [app word_sum]. rewrite IH; [reflexivity | simpl in Hn; lia | exact Ho]. }
      rewrite (Hw (length bs)) by auto. reflexivity.
    + rewrite length_app. cbn [length].
      replace (length bs + 1)%nat with (S (length bs)) by lia.
      rewrite Nat.even_succ. exact Hodd.
Qed.

Lemma calc_checksum_odd_length_raises_witness :
  Nat.odd (length [x01]) = true /\
  Utils.calc_checksum [x01] = Raise IndexError /\
  Utils.calc_checksum ([x01] ++ [x00]) = Ok 0xfeff.
Proof.
  split; [reflexivity|].
  exact (calc_checksum_odd_length_raises [x01] eq_refl).
Defined.

(** ** The control-flag set *)

(** C9: the string form of a flag set is the space-separated list of the
    lower-case names of the flags that are set, in the declaration order
    NS, CWR, ECE, URG, ACK, PSH, RST, SYN, FIN, without white space at
    either end; the set of ACK and SYN reads "ack syn". *)
Theorem str_lists_set_flags_in_declaration_order :
  (forall x : TcpControlBits,
      TcpControlBits.__str__ x = String.concat " " (set_flag_names x) /\
      no_outer_space (TcpControlBits.__str__ x) = true) /\
  TcpControlBits.__str__
    (TcpControlBits.__init__ false false false false true false false true false)
  = "ack syn"%string.
Proof.
  split; [|reflexivity].
  intros x.
  unfold TcpControlBits.__str__, set_flag_names, declaration_order.
  unfold TcpControlBits.ns, TcpControlBits.cwr, TcpControlBits.ece,
    TcpControlBits.urg, TcpControlBits.ack, TcpControlBits.psh,
    TcpControlBits.rst, TcpControlBits.syn, TcpControlBits.fin.
  cbn [filter fst snd].
  generalize (BitFlags.is_flag_set (flags x) TcpControlBits.NS).
  generalize (BitFlags.is_flag_set (flags x) TcpControlBits.CWR).
  generalize (BitFlags.is_flag_set (flags x) TcpControlBits.ECE).
  generalize (BitFlags.is_flag_set (flags x) TcpControlBits.URG).
  generalize (BitFlags.is_flag_set (flags x) TcpControlBits.ACK).
  generalize (BitFlags.is_flag_set (flags x) TcpControlBits.PSH).
  generalize (BitFlags.is_flag_set (flags x) TcpControlBits.RST).
  generalize (BitFlags.is_flag_set (flags x) TcpControlBits.SYN).
  generalize (BitFlags.is_flag_set (flags x) TcpControlBits.FIN).
  intros fin syn rst psh ack urg ece cwr ns.
  destruct ns, cwr, ece, urg, ack, psh, rst, syn, fin;
    split; vm_compute; reflexivity.
Qed.

(** C10: compared with an object of another class, a flag set and a
    packet of either implementation answer [None], which is falsy and
    not a Boolean; two flag sets are equal exactly when their packed
    integers are. *)
Theorem eq_with_other_class_is_None :
  (forall (x : TcpControlBits) (y : PyObject),
      is_TcpControlBits y = false -> TcpControlBits.__eq__ x y = PyNone) /\
  (forall (p : TcpPacket) (y : PyObject),
      is_TcpPacket y = false ->
      LayersTcp.__eq__ p y = PyNone /\ LayersTransportTcp.__eq__ p y = PyNone) /\
  (truthy PyNone = false /\ forall b : bool, PyNone <> PyBool b) /\
  (forall x y : TcpControlBits,
      TcpControlBits.__eq__ x (ObjTcpControlBits y) = PyBool (flags x =? flags y) /\
      (truthy (TcpControlBits.__eq__ x (ObjTcpControlBits y)) = true
       <-> flags x = flags y)).
Proof.
  repeat split.
  - destruct y; simpl in *; congruence.
  - destruct y; simpl in *; congruence.
  - destruct y; simpl in *; congruence.
  - discriminate.
  - simpl. apply Z.eqb_eq.
  - simpl. apply Z.eqb_eq.
Qed.

(** ** Which exceptions a serialization can raise *)

Lemma nia_ok {A : Type} (a : A) : not_invalid_argument (Ok a).
Proof. discriminate. Qed.

Lemma nia_bind {A B : Type} (r : result A) (k : A -> result B) :
  not_invalid_argument r ->
  (forall a, not_invalid_argument (k a)) ->
  not_invalid_argument (bind r k).
Proof.
  unfold not_invalid_argument. intros Hr Hk.
  destruct r as [a|e]; simpl; [apply Hk | ].
  intros H. apply Hr. congruence.
Qed.

Lemma nia_pack_uint (n : nat) (v : Z) : not_invalid_argument (Struct.pack_uint n v).
Proof. unfold Struct.pack_uint. destruct (_ && _); discriminate. Qed.

Lemma nia_pack (fs : list Struct.fmt) :
  forall args, not_invalid_argument (Struct.pack fs args).
Proof.
  induction fs as [|f fs IH]; intros [|a args]; simpl; try discriminate.
  apply nia_bind.
  - destruct f, a; simpl; try discriminate; apply nia_pack_uint.
  - intros hd. apply nia_bind; [apply IH | intros; apply nia_ok].
Qed.

Lemma nia_options_to_bytes (opts : TcpOptions) :
  not_invalid_argument (TcpOptions.to_bytes opts).
Proof.
  unfold TcpOptions.to_bytes, TcpOptions.to_bytes_padded.
  apply nia_bind; [|intros; apply nia_ok].
  induction opts as [|o opts IH]; simpl; [discriminate|].
  apply nia_bind; [|intros; apply nia_bind; [exact IH | intros; apply nia_ok]].
  assert (Hs : forall k v, not_invalid_argument (TcpOptions.sized_to_bytes k v)).
  { intros k v. unfold TcpOptions.sized_to_bytes.
    apply nia_bind; [apply nia_pack_uint | intros; apply nia_ok]. }
  destruct o; simpl; try discriminate; [|apply Hs].
  apply nia_bind; [|intros; apply Hs].
  induction values as [|v vs IHv]; simpl; [discriminate|].
  apply nia_bind; [apply nia_pack_uint|].
  intros; apply nia_bind; [exact IHv | intros; apply nia_ok].
Qed.

Lemma nia_calc_checksum (bs : list byte) :
  not_invalid_argument (Utils.calc_checksum bs).
Proof.
  rewrite calc_checksum_paired. apply nia_bind; [|intros; apply nia_ok].
  generalize 0 as acc.
  assert (H : forall n l acc, (length l <= n)%nat ->
                              not_invalid_argument (paired_sum l acc)).
  { induction n as [|n IH]; intros l acc Hn.
    - destruct l; [discriminate | simpl in Hn; lia].
    - destruct l as [|hi [|lo rest]]; simpl; try discriminate.
      apply IH. simpl in Hn. lia. }
  intros acc. apply (H (length bs)). lia.
Qed.

Lemma nia_calc_tcp_checksum (pseudo_header header rest : list byte) :
  not_invalid_argument (TcpUtils.calc_tcp_checksum pseudo_header header rest).
Proof. unfold TcpUtils.calc_tcp_checksum. apply nia_ok. Qed.

Lemma nia_getitem (buf : list byte) (i : nat) : not_invalid_argument (getitem buf i).
Proof. unfold getitem. destruct (nth_error buf i); discriminate. Qed.

Lemma nia_setitem (buf : list byte) (i : nat) (v : Z) :
  not_invalid_argument (setitem buf i v).
Proof.
  unfold setitem. destruct (_ <=? _)%nat; [discriminate|].
  destruct (_ && _); discriminate.
Qed.

Lemma nia_validate_packet_length (medium : LengthConstraint) (bs : list byte) :
  not_invalid_argument (TcpUtils.validate_packet_length medium bs) /\
  not_invalid_argument (TransportLayerUtils.validate_packet_length medium bs).
Proof.
  unfold TcpUtils.validate_packet_length, TransportLayerUtils.validate_packet_length.
  destruct (length_allowed medium (length bs)); split; discriminate.
Qed.

Ltac nia_step :=
  first
    [ apply nia_ok
    | apply nia_options_to_bytes
    | apply nia_calc_checksum
    | apply nia_calc_tcp_checksum
    | apply nia_getitem
    | apply nia_setitem
    | apply nia_pack
    | apply nia_validate_packet_length
    | apply nia_bind; [|intro] ].

Lemma nia_to_bytes (medium : LengthConstraint) (p : TcpPacket) :
  not_invalid_argument (LayersTcp.to_bytes medium p) /\
  not_invalid_argument (LayersTransportTcp.to_bytes medium p).
Proof.
  split.
  - unfold LayersTcp.to_bytes.
    repeat nia_step.
    + unfold py_assert. destruct (_ =? _); discriminate.
    + unfold Struct.pack_into. repeat nia_step.
      destruct (_ <=? _)%nat; discriminate.
    + unfold LayersTcp.__get_pseudo_header.
      destruct (underlying_packet p); try discriminate. apply nia_pack.
    + unfold int_to_bytes. destruct (_ && _); discriminate.
  - unfold LayersTransportTcp.to_bytes.
    repeat nia_step.
    + unfold py_assert. destruct (_ =? _); discriminate.
    + unfold Struct.pack_into. repeat nia_step.
      destruct (_ <=? _)%nat; discriminate.
    + unfold TransportLayerUtils.get_pseudo_header.
      destruct (underlying_packet p); try discriminate. apply nia_pack.
    + unfold int_to_bytes. destruct (_ && _); discriminate.
Qed.

(** ** Construction *)

Lemma init_ok_iff (sp dp sq ak : Z) (fl : TcpControlBits) (wn ur : Z)
      (op : TcpOptions) (pl : list byte) :
  LayersTcp.__init__ sp dp sq ak fl wn ur op pl
  = (if (0 <=? sp) && (sp <=? 65535) && ((0 <=? dp) && (dp <=? 65535))
     then Ok (mkTcpPacket sp dp sq ak fl wn ur op pl NoLayer NoLayer)
     else Raise InvalidArgument).
Proof.
  unfold LayersTcp.__init__, TcpUtils.validate_port_num.
  destruct ((0 <=? sp) && (sp <=? 65535)); simpl; [|reflexivity].
  destruct ((0 <=? dp) && (dp <=? 65535)); reflexivity.
Qed.

Lemma init_same (sp dp sq ak : Z) (fl : TcpControlBits) (wn ur : Z)
      (op : TcpOptions) (pl : list byte) :
  LayersTransportTcp.__init__ sp dp sq ak fl wn ur op pl
  = LayersTcp.__init__ sp dp sq ak fl wn ur op pl.
Proof. reflexivity. Qed.

(** C8: a source or destination port of -1 or 65536 makes the
    construction fail with the invalid-argument error, in both
    implementations; ports 0 and 65535 are accepted; and a serialization
    never raises that error, so the port check is not deferred to it. *)
Theorem port_bounds_checked_at_construction :
  (forall (sp dp sq ak : Z) (fl : TcpControlBits) (wn ur : Z)
          (op : TcpOptions) (pl : list byte),
      sp = -1 \/ sp = 65536 \/ dp = -1 \/ dp = 65536 ->
      LayersTcp.__init__ sp dp sq ak fl wn ur op pl = Raise InvalidArgument /\
      LayersTransportTcp.__init__ sp dp sq ak fl wn ur op pl = Raise InvalidArgument) /\
  (forall (sp dp sq ak : Z) (fl : TcpControlBits) (wn ur : Z)
          (op : TcpOptions) (pl : list byte),
      sp = 0 \/ sp = 65535 -> dp = 0 \/ dp = 65535 ->
      LayersTcp.__init__ sp dp sq ak fl wn ur op pl
      = Ok (mkTcpPacket sp dp sq ak fl wn ur op pl NoLayer NoLayer) /\
      LayersTransportTcp.__init__ sp dp sq ak fl wn ur op pl
      = Ok (mkTcpPacket sp dp sq ak fl wn ur op pl NoLayer NoLayer)) /\
  (forall (medium : LengthConstraint) (p : TcpPacket),
      LayersTcp.to_bytes medium p <> Raise InvalidArgument /\
      LayersTransportTcp.to_bytes medium p <> Raise InvalidArgument).
Proof.
  split; [|split].
  - intros sp dp sq ak fl wn ur op pl H.
    assert (E : (0 <=? sp) && (sp <=? 65535) && ((0 <=? dp) && (dp <=? 65535)) = false).
    { destruct H as [-> | [-> | [-> | ->]]]; try reflexivity;
        apply andb_false_iff; right; reflexivity. }
    split; [|change (LayersTransportTcp.__init__ sp dp sq ak fl wn ur op pl)
               with (LayersTcp.__init__ sp dp sq ak fl wn ur op pl)];
      rewrite init_ok_iff, E; reflexivity.
  - intros sp dp sq ak fl wn ur op pl Hs Hd.
    destruct Hs as [-> | ->], Hd as [-> | ->]; split; reflexivity.
  - intros medium p. apply nia_to_bytes.
Qed.

(** ** Parsing *)

(** The two implementations parse alike. *)
Lemma from_bytes_same (packet_bytes : list byte) :
  LayersTransportTcp.from_bytes packet_bytes = LayersTcp.from_bytes packet_bytes.
Proof. reflexivity. Qed.

(** An input shorter than the fixed header is refused by [struct.unpack]. *)
Lemma from_bytes_truncated (packet_bytes : list byte) :
  (length packet_bytes < 20)%nat ->
  LayersTcp.from_bytes packet_bytes = Raise StructError.
Proof.
  intros Hlen. unfold LayersTcp.from_bytes, Struct.unpack.
  assert (E : (length (slice_to packet_bytes TcpUtils.TCP_HEADER_LENGTH_BYTES)
               =? Struct.calcsize LayersTcp.TCP_HEADER_FORMAT)%nat = false).
  { apply Nat.eqb_neq. unfold slice_to. cbn -[firstn].
    rewrite length_firstn.
    change (Pos.to_nat 20) with 20%nat. lia. }
  rewrite E. reflexivity.
Qed.

(** What [from_bytes] does with an input that has the 20 header bytes. *)
Lemma from_bytes_header
      (b0 b1 b2 b3 b4 b5 b6 b7 b8 b9 b10 b11 b12 b13 b14 b15 b16 b17 b18 b19 : byte)
      (rest : list byte) :
  LayersTcp.from_bytes
    (b0 :: b1 :: b2 :: b3 :: b4 :: b5 :: b6 :: b7 :: b8 :: b9 :: b10 :: b11
        :: b12 :: b13 :: b14 :: b15 :: b16 :: b17 :: b18 :: b19 :: rest)
  = let data_offset_flags := be_value [b12; b13] in
    if negb (Z.land (Z.shiftr data_offset_flags 9) 7 =? 0)
    then Raise (ValueError "Reserved bits should be set to zero")
    else
      let options_len := (Z.shiftr data_offset_flags 12 - 5) * 4 in
      options <- TcpOptions.from_bytes (slice_to rest options_len) ;;
      LayersTcp.__init__
        (be_value [b0; b1]) (be_value [b2; b3])
        (be_value [b4; b5; b6; b7]) (be_value [b8; b9; b10; b11])
        (TcpControlBits.from_int (Z.land data_offset_flags 511))
        (be_value [b14; b15]) (be_value [b18; b19])
        options (slice_from rest options_len).
Proof.
  cbv zeta.
  transitivity
    ((if negb (Z.land (Z.shiftr (be_value [b12; b13]) 9) 7 =? 0)
      then Raise (ValueError "Reserved bits should be set to zero")
      else Ok tt) ;;;
     options <- TcpOptions.from_bytes
                  (slice_to rest ((Z.shiftr (be_value [b12; b13]) 12 - 5) * 4)) ;;
     LayersTcp.__init__
       (be_value [b0; b1]) (be_value [b2; b3])
       (be_value [b4; b5; b6; b7]) (be_value [b8; b9; b10; b11])
       (TcpControlBits.from_int (Z.land (be_value [b12; b13]) 511))
       (be_value [b14; b15]) (be_value [b18; b19])
       options (slice_from rest ((Z.shiftr (be_value [b12; b13]) 12 - 5) * 4))).
  - reflexivity.
  - destruct (negb (Z.land (Z.shiftr (be_value [b12; b13]) 9) 7 =? 0)); reflexivity.
Qed.

Lemma reserved_bits_nonzero (field : Z) :
  reserved_bit_set field = true ->
  negb (Z.land (Z.shiftr field 9) 7 =? 0) = true.
Proof.
  intros H. apply negb_true_iff, Z.eqb_neq. intros E.
  assert (Hb : forall i, 0 <= i < 3 -> Z.testbit field (i + 9) = false).
  { intros i Hi.
    assert (Ht : Z.testbit (Z.land (Z.shiftr field 9) 7) i = false)
      by (rewrite E; apply Z.bits_0).
    rewrite Z.land_spec, Z.shiftr_spec in Ht by lia.
    assert (H7 : Z.testbit 7 i = true).
    { assert (i = 0 \/ i = 1 \/ i = 2) as [-> | [-> | ->]] by lia; reflexivity. }
    rewrite H7, andb_true_r in Ht. exact Ht. }
  unfold reserved_bit_set in H.
  pose proof (Hb 0 ltac:(lia)) as H9.
  pose proof (Hb 1 ltac:(lia)) as H10.
  pose proof (Hb 2 ltac:(lia)) as H11.
  change (0 + 9) with 9 in H9. change (1 + 9) with 10 in H10.
  change (2 + 9) with 11 in H11.
  rewrite H9, H10, H11 in H. discriminate H.
Qed.

(** C5: an input whose offset/flags field has one of the bits 9, 10, 11
    set is never parsed into a packet, by either implementation:
    [from_bytes] raises the error "Reserved bits should be set to zero",
    or, when the input is shorter than the 20-byte header, the error of
    [struct.unpack] for a truncated header. *)
Theorem reserved_bits_rejected (packet_bytes : list byte) (field : Z) :
  offset_flags_field packet_bytes = Some field ->
  reserved_bit_set field = true ->
  LayersTcp.from_bytes packet_bytes
  = Raise (if (length packet_bytes <? 20)%nat
           then StructError
           else ValueError "Reserved bits should be set to zero") /\
  LayersTransportTcp.from_bytes packet_bytes
  = LayersTcp.from_bytes packet_bytes.
Proof.
  intros Hf Hr. split; [|apply from_bytes_same].
  destruct (Nat.ltb_spec (length packet_bytes) 20) as [Hlt|Hge].
  - apply from_bytes_truncated. exact Hlt.
  - do 20 (destruct packet_bytes as [|? packet_bytes]; [simpl in Hge; lia|]).
    rewrite from_bytes_header. cbv zeta.
    cbn [offset_flags_field skipn] in Hf. injection Hf as <-.
    rewrite reserved_bits_nonzero by exact Hr. reflexivity.
Qed.

Lemma reserved_bits_rejected_witness :
  LayersTcp.from_bytes
    [x00; x50; x01; xbb; x00; x00; x00; x00; x00; x00; x00; x00;
     x52; x02; xff; xff; x00; x00; x00; x00]
  = Raise (ValueError "Reserved bits should be set to zero").
Proof.
  exact (proj1 (reserved_bits_rejected
    [x00; x50; x01; xbb; x00; x00; x00; x00; x00; x00; x00; x00;
     x52; x02; xff; xff; x00; x00; x00; x00] 0x5202 eq_refl eq_refl)).
Defined.

(** C6, at a 20-byte header whose data offset is 4 followed by the four
    bytes "abcd", and at 20 zero bytes (data offset 0): no error is
    raised.  The negative options length is used as a slice bound that
    counts from the end, so the last bytes of the input become the
    payload and what precedes them is decoded as options. *)
Theorem data_offset_below_5_is_parsed :
  data_offset_of (be_value [x40; x02]) = 4 /\
  LayersTcp.from_bytes
    [x00; x50; x01; xbb; x00; x00; x00; x00; x00; x00; x00; x00;
     x40; x02; xff; xff; x00; x00; x00; x00; x61; x62; x63; x64]
  = Ok (mkTcpPacket 80 443 0 0 (mkTcpControlBits 2) 65535 0 []
          [x61; x62; x63; x64] NoLayer NoLayer) /\
  LayersTransportTcp.from_bytes
    [x00; x50; x01; xbb; x00; x00; x00; x00; x00; x00; x00; x00;
     x40; x02; xff; xff; x00; x00; x00; x00; x61; x62; x63; x64]
  = Ok (mkTcpPacket 80 443 0 0 (mkTcpControlBits 2) 65535 0 []
          [x61; x62; x63; x64] NoLayer NoLayer) /\
  LayersTcp.from_bytes (repeat x00 20)
  = Ok (mkTcpPacket 0 0 0 0 (mkTcpControlBits 0) 0 0 [] [] NoLayer NoLayer).
Proof. repeat split; vm_compute; reflexivity. Qed.

(** ** The scenario of the test *)

(** C1: for the packet of the scenario, on a medium that allows 32
    bytes, [to_bytes] returns the bytes whose hex form is the packet dump
    of the test; they are 32 bytes, 20 of header and 12 of options. *)
Theorem scenario_to_bytes (medium : LengthConstraint) :
  length_allowed medium 32 = true ->
  exists packet : list byte,
    LayersTcp.to_bytes medium scenario_packet = Ok packet /\
    hex packet = PACKET_DUMP_1 /\
    length packet = 32%nat.
Proof.
  intros H. unfold LayersTcp.to_bytes, TcpUtils.validate_packet_length.
  revert H. generalize (length_allowed medium) as allowed. intros allowed H.
  vm_compute. rewrite H. eexists. repeat split.
Qed.

Lemma scenario_to_bytes_witness :
  exists packet : list byte,
    LayersTcp.to_bytes ip_medium scenario_packet = Ok packet /\
    hex packet = PACKET_DUMP_1 /\
    length packet = 32%nat.
Proof. exact (scenario_to_bytes ip_medium eq_refl). Defined.

(** C1 as stated fails: no sequence of 34 bytes is returned. *)
Lemma scenario_dump_is_not_34_bytes :
  ~ exists packet : list byte,
      LayersTcp.to_bytes ip_medium scenario_packet = Ok packet /\
      length packet = 34%nat /\
      hex packet = PACKET_DUMP_1.
Proof.
  intros [packet [H1 [H2 _]]]. vm_compute in H1.
  injection H1 as <-. discriminate H2.
Qed.

(** ** The two implementations *)

Lemma py_and_bool (a b : bool) : py_and (PyBool a) (PyBool b) = PyBool (a && b).
Proof. destruct a; reflexivity. Qed.



(** What the two comparisons compute on two packets: the common fields,
    and the underlying packet in one class, the upper layer in the
    other. *)
Lemma eq_packets (p q : TcpPacket) :
  LayersTcp.__eq__ p (ObjTcpPacket q)
  = PyBool (same_fields p q
            && Layer_eqb (underlying_packet p) (underlying_packet q)) /\
  LayersTransportTcp.__eq__ p (ObjTcpPacket q)
  = PyBool (same_fields p q && Layer_eqb (upper_layer p) (upper_layer q)).
Proof.
  unfold LayersTcp.__eq__, LayersTransportTcp.__eq__, same_fields,
    TcpControlBits.__eq__, TcpOptions.__eq__.
  unfold LayersTcp.dest_port, LayersTcp.source_port, LayersTcp.payload,
    LayersTcp.sequence_number, LayersTcp.ack_number, LayersTcp.flags,
    LayersTcp.win_size, LayersTcp.urg_pointer, LayersTcp.options,
    LayersTransportTcp.dest_port, LayersTransportTcp.source_port,
    LayersTransportTcp.payload, LayersTransportTcp.sequence_number,
    LayersTransportTcp.ack_number, LayersTransportTcp.flags,
    LayersTransportTcp.win_size, LayersTransportTcp.urg_pointer,
    LayersTransportTcp.options.
  rewrite !py_and_bool. split; f_equal.
  - destruct (__dest_port p =? __dest_port q),
      (__source_port p =? __source_port q),
      (bytes_eqb (_payload p) (_payload q)),
      (__sequence_number p =? __sequence_number q),
      (__ack_number p =? __ack_number q),
      (flags (__flags p) =? flags (__flags q)),
      (__win_size p =? __win_size q),
      (__urg_pointer p =? __urg_pointer q),
      (list_eqb TcpOption_eqb (__options p) (__options q)),
      (Layer_eqb (underlying_packet p) (underlying_packet q)); reflexivity.
  - destruct (__dest_port p =? __dest_port q),
      (__source_port p =? __source_port q),
      (bytes_eqb (_payload p) (_payload q)),
      (__sequence_number p =? __sequence_number q),
      (__ack_number p =? __ack_number q),
      (flags (__flags p) =? flags (__flags q)),
      (__win_size p =? __win_size q),
      (__urg_pointer p =? __urg_pointer q),
      (list_eqb TcpOption_eqb (__options p) (__options q)),
      (Layer_eqb (upper_layer p) (upper_layer q)); reflexivity.
Qed.




(** ** Serialization followed by parsing *)

Lemma pack_uint_inv (n : nat) (v : Z) (bs : list byte) :
  Struct.pack_uint n v = Ok bs ->
  0 <= v < 2 ^ (8 * Z.of_nat n) /\ bs = be_bytes n v.
Proof.
  unfold Struct.pack_uint.
  destruct ((0 <=? v) && (v <? 2 ^ (8 * Z.of_nat n))) eqn:E; [|discriminate].
  intros H. injection H as <-.
  apply andb_true_iff in E. destruct E as [E1 E2].
  apply Z.leb_le in E1. apply Z.ltb_lt in E2. auto.
Qed.

Lemma bind_ok_inv {A B : Type} (r : result A) (k : A -> result B) (b : B) :
  bind r k = Ok b -> exists a, r = Ok a /\ k a = Ok b.
Proof. destruct r as [a|e]; simpl; [eauto | discriminate]. Qed.

(** The fixed header as [struct.pack_into] lays it out. *)
Lemma pack_into_header (a b c d e f g h : Z) (header_buffer : list byte) :
  Struct.pack_into LayersTcp.TCP_HEADER_FORMAT (bytearray 20)
    [Struct.AInt a; Struct.AInt b; Struct.AInt c; Struct.AInt d;
     Struct.AInt e; Struct.AInt f; Struct.AInt g; Struct.AInt h]
  = Ok header_buffer ->
  (0 <= a < 65536 /\ 0 <= b < 65536 /\ 0 <= c < 4294967296 /\
   0 <= d < 4294967296 /\ 0 <= e < 65536 /\ 0 <= f < 65536 /\
   0 <= g < 65536 /\ 0 <= h < 65536) /\
  header_buffer
  = be_bytes 2 a ++ be_bytes 2 b ++ be_bytes 4 c ++ be_bytes 4 d
    ++ be_bytes 2 e ++ be_bytes 2 f ++ be_bytes 2 g ++ be_bytes 2 h.
Proof.
  unfold Struct.pack_into, LayersTcp.TCP_HEADER_FORMAT.
  cbn [Struct.pack Struct.pack1 Struct.width].
  intros H.
  apply bind_ok_inv in H. destruct H as [packed [H Hbuf]].
  repeat
    match goal with
    | Hb : bind _ _ = Ok _ |- _ =>
        apply bind_ok_inv in Hb; destruct Hb as [? [? ?]]
    | Hp : Struct.pack_uint _ _ = Ok _ |- _ =>
        apply pack_uint_inv in Hp; destruct Hp as [? ->]
    | Hi : Ok _ = Ok _ |- _ => injection Hi as <-
    end.
  cbn [length bytearray repeat Nat.leb skipn app] in Hbuf.
  injection Hbuf as <-.
  change (2 ^ (8 * Z.of_nat 2)) with 65536 in *.
  change (2 ^ (8 * Z.of_nat 4)) with 4294967296 in *.
  repeat split; lia || reflexivity.
Qed.

Lemma be_value_2 (v : Z) :
  0 <= v < 65536 -> be_value [byte_of_Z (Z.shiftr v 8); byte_of_Z v] = v.
Proof. intros H. apply (be_value_be_bytes 2 v). exact H. Qed.

Lemma be_value_4 (v : Z) :
  0 <= v < 4294967296 ->
  be_value [byte_of_Z (Z.shiftr (Z.shiftr (Z.shiftr v 8) 8) 8);
            byte_of_Z (Z.shiftr (Z.shiftr v 8) 8);
            byte_of_Z (Z.shiftr v 8); byte_of_Z v] = v.
Proof. intros H. apply (be_value_be_bytes 4 v). exact H. Qed.

Lemma setitem_byte (buf : list byte) (i : nat) (b : byte) :
  (i < length buf)%nat ->
  setitem buf i (byte_to_Z b) = Ok (replace_nth buf i b).
Proof.
  intros Hi. unfold setitem.
  destruct (Nat.leb_spec (length buf) i) as [H|H]; [lia|].
  pose proof (byte_to_Z_range b) as Hb.
  destruct (Z.leb_spec 0 (byte_to_Z b)); [|lia].
  destruct (Z.ltb_spec (byte_to_Z b) 256); [|lia].
  cbn [andb]. rewrite byte_of_to_Z. reflexivity.
Qed.

(** *** The offset/flags field *)

Section OffsetFlags.

Variables data_offset flag_bits : Z.
Hypothesis Hoffset : 0 <= data_offset.
Hypothesis Hflags : 0 <= flag_bits < 512.

Lemma field_data_offset :
  Z.shiftr (Z.lor (Z.shiftl data_offset 12) flag_bits) 12 = data_offset.
Proof.
  rewrite Z.shiftr_lor, Z.shiftr_shiftl_l by lia.
  rewrite (Z.shiftr_div_pow2 flag_bits) by lia.
  change (2 ^ 12) with 4096. rewrite Z.div_small by lia.
  rewrite Z.lor_0_r. apply Z.shiftl_0_r.
Qed.

Lemma field_reserved_bits :
  Z.land (Z.shiftr (Z.lor (Z.shiftl data_offset 12) flag_bits) 9) 7 = 0.
Proof.
  rewrite Z.shiftr_lor, Z.shiftr_shiftl_l by lia.
  rewrite (Z.shiftr_div_pow2 flag_bits) by lia.
  change (2 ^ 9) with 512. rewrite Z.div_small by lia.
  rewrite Z.lor_0_r. change 7 with (Z.ones 3).
  rewrite Z.land_ones, Z.shiftl_mul_pow2 by lia.
  change (12 - 9) with 3. apply Z.mod_mul. lia.
Qed.

Lemma field_flags :
  Z.land (Z.lor (Z.shiftl data_offset 12) flag_bits) 511 = flag_bits.
Proof.
  rewrite Z.land_lor_distr_l.
  change 511 with (Z.ones 9). rewrite !Z.land_ones by lia.
  rewrite Z.shiftl_mul_pow2 by lia.
  change (2 ^ 12) with (8 * 2 ^ 9). rewrite Z.mul_assoc, Z.mod_mul by lia.
  rewrite Z.mod_small by (change (2 ^ 9) with 512; lia).
  apply Z.lor_0_l.
Qed.

End OffsetFlags.

(** [from_int] rebuilds a flag set from its 9 bits. *)
Lemma from_int_flags (x : TcpControlBits) :
  0 <= flags x < 512 -> TcpControlBits.from_int (flags x) = x.
Proof.
  destruct x as [f]. cbn [flags]. intros Hf.
  assert (Hall : forallb
                   (fun n => flags (TcpControlBits.from_int (Z.of_nat n)) =? Z.of_nat n)
                   (seq 0 512) = true) by (vm_compute; reflexivity).
  rewrite forallb_forall in Hall.
  specialize (Hall (Z.to_nat f)).
  rewrite Z2Nat.id in Hall by lia.
  assert (Hin : In (Z.to_nat f) (seq 0 512)) by (apply in_seq; lia).
  apply Hall in Hin. apply Z.eqb_eq in Hin.
  destruct (TcpControlBits.from_int f) as [g]. cbn [flags] in Hin. congruence.
Qed.

Lemma slices_of_app (l1 l2 : list byte) :
  slice_to (l1 ++ l2) (Z.of_nat (length l1)) = l1 /\
  slice_from (l1 ++ l2) (Z.of_nat (length l1)) = l2.
Proof.
  unfold slice_to, slice_from.
  destruct (Z.ltb_spec (Z.of_nat (length l1)) 0) as [H|H]; [lia|].
  rewrite Nat2Z.id. split.
  - rewrite firstn_app, Nat.sub_diag, firstn_all. cbn [firstn]. apply app_nil_r.
  - rewrite skipn_app, Nat.sub_diag, skipn_all. reflexivity.
Qed.

(** ** The options codec *)

(** The scan does not depend on the fuel once it covers the slice. *)
Lemma decode_fuel (fuel1 : nat) :
  forall (fuel2 : nat) (bs : list byte),
    (length bs <= fuel1)%nat -> (length bs <= fuel2)%nat ->
    TcpOptions.decode fuel1 bs = TcpOptions.decode fuel2 bs.
Proof.
  induction fuel1 as [|fuel1 IH]; intros fuel2 bs H1 H2.
  - destruct bs; [|simpl in H1; lia]. destruct fuel2; reflexivity.
  - destruct bs as [|kind rest]; [destruct fuel2; reflexivity|].
    destruct fuel2 as [|fuel2]; [simpl in H2; lia|].
    cbn [TcpOptions.decode]. cbn [length] in H1, H2.
    destruct (Byte.eqb kind TcpOptions.END_OF_OPTION_LIST); [reflexivity|].
    destruct (Byte.eqb kind TcpOptions.NOP).
    + rewrite (IH fuel2 rest) by lia. reflexivity.
    + destruct rest as [|len rest']; [reflexivity|].
      destruct (byte_to_Z len <? 2); [reflexivity|].
      destruct (Z.of_nat (length rest') <? byte_to_Z len - 2); [reflexivity|].
      cbn [length] in H1, H2.
      pose proof (length_skipn (Z.to_nat (byte_to_Z len - 2)) rest') as Hs.
      rewrite (IH fuel2) by lia. reflexivity.
Qed.

Lemma words_be_bytes (a b : Z) :
  0 <= a < 4294967296 -> 0 <= b < 4294967296 ->
  TcpOptions.words (be_bytes 4 a ++ be_bytes 4 b ++ []) = [a; b].
Proof.
  intros Ha Hb. cbn [be_bytes app TcpOptions.words].
  rewrite !be_value_4 by assumption. reflexivity.
Qed.

Lemma length_byte (n : nat) :
  (n <= 253)%nat ->
  Struct.pack_uint 1 (2 + Z.of_nat n) = Ok [byte_of_Z (2 + Z.of_nat n)] /\
  byte_to_Z (byte_of_Z (2 + Z.of_nat n)) = 2 + Z.of_nat n.
Proof.
  intros Hn. unfold Struct.pack_uint. change (2 ^ (8 * Z.of_nat 1)) with 256.
  destruct (Z.leb_spec 0 (2 + Z.of_nat n)); [|lia].
  destruct (Z.ltb_spec (2 + Z.of_nat n) 256); [|lia].
  split; [reflexivity|]. rewrite byte_to_of_Z. apply Z.mod_small. lia.
Qed.

(** Decoding what [sized_to_bytes] wrote, followed by further bytes. *)
Lemma decode_sized (fuel : nat) (kind : byte) (value tail : list byte) :
  Byte.eqb kind TcpOptions.END_OF_OPTION_LIST = false ->
  Byte.eqb kind TcpOptions.NOP = false ->
  (length value <= 253)%nat ->
  TcpOptions.decode (S fuel)
    (kind :: [byte_of_Z (2 + Z.of_nat (length value))] ++ value ++ tail)
  = (tl <- TcpOptions.decode fuel tail ;;
     Ok (TcpOptions.make_option kind value :: tl)).
Proof.
  intros H0 H1 Hlen. cbn [TcpOptions.decode app]. rewrite H0, H1.
  destruct (length_byte (length value) Hlen) as [_ ->].
  destruct (Z.ltb_spec (2 + Z.of_nat (length value)) 2) as [H|H]; [lia|].
  rewrite length_app.
  destruct (Z.ltb_spec (Z.of_nat (length value + length tail))
                       (2 + Z.of_nat (length value) - 2)) as [H'|H']; [lia|].
  replace (Z.to_nat (2 + Z.of_nat (length value) - 2)) with (length value) by lia.
  rewrite skipn_app, skipn_all, Nat.sub_diag. cbn [skipn app].
  rewrite firstn_app, firstn_all, Nat.sub_diag. cbn [firstn].
  rewrite app_nil_r. reflexivity.
Qed.

Lemma ok_inj {A : Type} (a b : A) : Ok a = Ok b -> a = b.
Proof. intros H. injection H as H. exact H. Qed.

Lemma decode_encode (opts : TcpOptions) :
  forall (raw : list byte) (fuel : nat),
    wire_stable opts = true ->
    TcpOptions.options_to_bytes opts = Ok raw ->
    (length raw <= fuel)%nat ->
    TcpOptions.decode fuel raw = Ok opts.
Proof.
  induction opts as [|o rest IH]; intros raw fuel Hst Henc Hfuel.
  - apply ok_inj in Henc; subst raw. destruct fuel; reflexivity.
  - cbn [TcpOptions.options_to_bytes] in Henc.
    apply bind_ok_inv in Henc. destruct Henc as [b [Hb Henc]].
    apply bind_ok_inv in Henc. destruct Henc as [bs [Hbs Henc]].
    apply ok_inj in Henc; subst raw.
    assert (Hrest : o <> EndOfList ->
                    wire_stable_option o = true /\ wire_stable rest = true).
    { intros Ho. cbn [wire_stable] in Hst.
      destruct o; try congruence; apply andb_true_iff in Hst; exact Hst. }
    destruct o as [| |kind values|kind value].
    + (* EndOfList, the last option *)
      cbn [wire_stable] in Hst.
      destruct rest; [|discriminate Hst].
      apply ok_inj in Hb; subst b. apply ok_inj in Hbs; subst bs.
      destruct fuel; [simpl in Hfuel; lia | reflexivity].
    + (* NoOp *)
      destruct Hrest as [_ Hst']; [discriminate|].
      apply ok_inj in Hb; subst b. cbn [app length] in *.
      destruct fuel as [|fuel]; [lia|].
      cbn [TcpOptions.decode].
      change (Byte.eqb TcpOptions.NOP TcpOptions.END_OF_OPTION_LIST) with false.
      change (Byte.eqb TcpOptions.NOP TcpOptions.NOP) with true. cbn iota.
      rewrite (IH bs fuel Hst' Hbs) by lia. reflexivity.
    + (* a sized option with a fixed word arity *)
      destruct Hrest as [Ho Hst']; [discriminate|].
      cbn [wire_stable_option] in Ho.
      unfold TcpOptions.word_arity in Ho.
      destruct (Byte.eqb kind TcpOptions.TIMESTAMPS) eqn:Ek; [|discriminate Ho].
      apply Byte.byte_dec_bl in Ek. subst kind.
      apply andb_true_iff in Ho. destruct Ho as [Hn Hv].
      apply Nat.eqb_eq in Hn.
      destruct values as [|va [|vb [|? ?]]]; try discriminate Hn.
      cbn [forallb] in Hv.
      rewrite !andb_true_iff, !Z.leb_le, !Z.ltb_lt in Hv.
      destruct Hv as [[? ?] [[? ?] _]].
      cbn [TcpOptions.option_to_bytes TcpOptions.pack_values] in Hb.
      unfold Struct.pack_uint in Hb at 1 2.
      change (2 ^ (8 * Z.of_nat 4)) with 4294967296 in Hb.
      destruct (Z.leb_spec 0 va); [|lia]. destruct (Z.ltb_spec va 4294967296); [|lia].
      destruct (Z.leb_spec 0 vb); [|lia]. destruct (Z.ltb_spec vb 4294967296); [|lia].
      cbn [andb bind] in Hb. unfold TcpOptions.sized_to_bytes in Hb.
      assert (Hl : length (be_bytes 4 va ++ be_bytes 4 vb ++ []) = 8%nat)
        by (rewrite !length_app, !be_bytes_length; reflexivity).
      destruct (length_byte (length (be_bytes 4 va ++ be_bytes 4 vb ++ [])))
        as [Hp _]; [lia|].
      rewrite Hp in Hb. cbn [bind] in Hb. apply ok_inj in Hb; subst b.
      destruct fuel as [|fuel]; [cbn [app length] in Hfuel; lia|].
      change (TcpOptions.decode (S fuel)
                (TcpOptions.TIMESTAMPS
                   :: [byte_of_Z (2 + Z.of_nat
                         (length (be_bytes 4 va ++ be_bytes 4 vb ++ [])))]
                   ++ (be_bytes 4 va ++ be_bytes 4 vb ++ []) ++ bs)
              = Ok (Sized TcpOptions.TIMESTAMPS [va; vb] :: rest)).
      rewrite (decode_sized fuel TcpOptions.TIMESTAMPS) by (reflexivity || lia).
      rewrite (IH bs fuel Hst' Hbs).
      * cbn [bind]. unfold TcpOptions.make_option.
        change (TcpOptions.word_arity TcpOptions.TIMESTAMPS) with (Some 2%nat).
        rewrite Hl. cbn [Nat.mul Nat.add Nat.eqb].
        rewrite words_be_bytes by lia. reflexivity.
      * cbn [app length] in Hfuel. rewrite !length_app in Hfuel.
        cbn [length] in Hfuel. lia.
    + (* an opaque option *)
      destruct Hrest as [Ho Hst']; [discriminate|].
      cbn [wire_stable_option] in Ho.
      rewrite !andb_true_iff, !negb_true_iff in Ho.
      destruct Ho as [[[H0 H1] Hlen] Har]. apply Nat.leb_le in Hlen.
      cbn [TcpOptions.option_to_bytes] in Hb. unfold TcpOptions.sized_to_bytes in Hb.
      destruct (length_byte (length value) Hlen) as [Hp _].
      rewrite Hp in Hb. cbn [bind] in Hb. apply ok_inj in Hb; subst b.
      destruct fuel as [|fuel]; [cbn [app length] in Hfuel; lia|].
      change (TcpOptions.decode (S fuel)
                (kind :: [byte_of_Z (2 + Z.of_nat (length value))]
                      ++ value ++ bs)
              = Ok (Unknown kind value :: rest)).
      rewrite (decode_sized fuel kind) by assumption.
      rewrite (IH bs fuel Hst' Hbs).
      * cbn [bind]. unfold TcpOptions.make_option.
        destruct (TcpOptions.word_arity kind) as [n|]; [|reflexivity].
        apply negb_true_iff in Har. rewrite Har. reflexivity.
      * cbn [app length] in Hfuel. rewrite !length_app in Hfuel.
        cbn [length] in Hfuel. lia.
Qed.

(** Options that need no padding and that the decoder reads as they were
    written come back from the wire value for value and in order. *)
Lemma wire_stable_roundtrip (opts : TcpOptions) :
  wire_stable opts = true ->
  needs_no_padding opts ->
  options_on_the_wire opts = Ok opts.
Proof.
  intros Hst [raw [Henc Hal]].
  unfold options_on_the_wire, TcpOptions.to_bytes, TcpOptions.to_bytes_padded.
  rewrite Henc. cbn [bind]. unfold TcpOptions.padding. rewrite Hal.
  cbn [Nat.sub Nat.modulo Nat.divmod fst snd repeat].
  rewrite app_nil_r. unfold TcpOptions.from_bytes.
  apply decode_encode; [exact Hst | exact Henc | lia].
Qed.

(** The padding comes back as options whichever of the two padding bytes
    is used: two NoOp options, or one EndOfList. *)
Lemma padding_is_decoded :
  (b <- TcpOptions.to_bytes_padded TcpOptions.NOP
          [Sized TcpOptions.TIMESTAMPS [3252488245; 365238493]] ;;
   TcpOptions.from_bytes b)
  = Ok [Sized TcpOptions.TIMESTAMPS [3252488245; 365238493]; NoOp; NoOp] /\
  (b <- TcpOptions.to_bytes_padded TcpOptions.END_OF_OPTION_LIST
          [Sized TcpOptions.TIMESTAMPS [3252488245; 365238493]] ;;
   TcpOptions.from_bytes b)
  = Ok [Sized TcpOptions.TIMESTAMPS [3252488245; 365238493]; EndOfList].
Proof. split; vm_compute; reflexivity. Qed.

(** What parsing makes of a serialized packet: every header field and
    the payload come back, the links to the neighbouring layers are
    unset, and the options are those decoded from the encoded options. *)
Lemma from_bytes_to_bytes (medium : LengthConstraint) (p : TcpPacket)
      (packet : list byte) :
  valid_flags p ->
  LayersTcp.to_bytes medium p = Ok packet ->
  LayersTcp.from_bytes packet
  = (options <- options_on_the_wire (__options p) ;; Ok (parsed p options)).
Proof.
  intros Hvalid H. unfold valid_flags in Hvalid.
  unfold LayersTcp.to_bytes in H.
  apply bind_ok_inv in H. destruct H as [options_bytes [Hopt H]].
  apply bind_ok_inv in H. destruct H as [[] [Hassert H]].
  unfold py_assert in Hassert.
  destruct (Z.eqb_spec (Z.of_nat (length options_bytes) mod 4) 0) as [Hal|];
    [clear Hassert | discriminate Hassert].
  cbv zeta in H.
  set (data_offset :=
         TcpUtils.TCP_HEADER_LENGTH + Z.of_nat (length options_bytes) / 4) in *.
  remember (Z.lor (Z.shiftl data_offset 12) (flags (__flags p)))
    as data_offset_flags eqn:Efield.
  apply bind_ok_inv in H. destruct H as [header_buffer [Hhdr H]].
  apply pack_into_header in Hhdr. destruct Hhdr as [Hranges ->].
  destruct Hranges as (Hsp & Hdp & Hsq & Hak & Hdof & Hwin & _ & Hurg).
  apply bind_ok_inv in H. destruct H as [pseudo_header [_ H]].
  apply bind_ok_inv in H. destruct H as [checksum [_ H]].
  apply bind_ok_inv in H. destruct H as [checksum_bytes [Hcb H]].
  unfold int_to_bytes in Hcb.
  destruct ((0 <=? checksum) && (checksum <? 2 ^ (8 * Z.of_nat 2)));
    [injection Hcb as <- | discriminate Hcb].
  cbn [be_bytes app getitem nth_error bind] in H.
  rewrite setitem_byte in H by (cbn; lia).
  cbn [replace_nth bind] in H.
  rewrite setitem_byte in H by (cbn; lia).
  cbn [replace_nth bind] in H.
  unfold TcpUtils.validate_packet_length in H.
  destruct (length_allowed medium _); [injection H as <- | discriminate H].
  cbn [app]. rewrite from_bytes_header. cbv zeta.
  (* the header fields *)
  assert (Hdo : 0 <= data_offset).
  { unfold data_offset, TcpUtils.TCP_HEADER_LENGTH.
    assert (0 <= Z.of_nat (length options_bytes) / 4) by (apply Z.div_pos; lia).
    lia. }
  rewrite !be_value_2 by assumption.
  rewrite !be_value_4 by assumption.
  subst data_offset_flags.
  rewrite field_reserved_bits by assumption.
  rewrite field_data_offset by assumption.
  rewrite field_flags by assumption.
  cbn [Z.eqb negb].
  (* the options and the payload *)
  assert (Hlen : (data_offset - 5) * 4 = Z.of_nat (length options_bytes)).
  { unfold data_offset, TcpUtils.TCP_HEADER_LENGTH.
    pose proof (Z.div_mod (Z.of_nat (length options_bytes)) 4 ltac:(lia)). lia. }
  rewrite Hlen.
  destruct (slices_of_app options_bytes (_payload p)) as [-> ->].
  unfold options_on_the_wire. rewrite Hopt. cbn [bind].
  destruct (TcpOptions.from_bytes options_bytes) as [options|e];
    [cbn [bind] | reflexivity].
  rewrite init_ok_iff.
  assert (Hports : (0 <=? __source_port p) && (__source_port p <=? 65535)
                   && ((0 <=? __dest_port p) && (__dest_port p <=? 65535)) = true).
  { rewrite !andb_true_iff, !Z.leb_le. lia. }
  rewrite Hports, from_int_flags by assumption. reflexivity.
Qed.




(** The parse of a serialized packet can fail: an option written with
    the kind byte 1 is read back as a NoOp, and the bytes after it are
    not a well-formed option. *)
Lemma unreadable_options_fail_the_parse :
  exists packet : list byte,
    LayersTcp.to_bytes ip_medium
      {| __source_port := 59700; __dest_port := 443;
         __sequence_number := 0; __ack_number := 0;
         __flags := mkTcpControlBits 16; __win_size := 501;
         __urg_pointer := 0; __options := [Unknown x01 [x05; x05]];
         _payload := []; underlying_packet := IpLayer scenario_ip;
         upper_layer := NoLayer |}
    = Ok packet /\
    LayersTcp.from_bytes packet = Raise MalformedOptions.
Proof.
  eexists. split; [vm_compute; reflexivity|]. vm_compute. reflexivity.
Qed.

(** The encoded options always fill whole 32-bit words. *)
Lemma options_to_bytes_aligned (opts : TcpOptions) (options_bytes : list byte) :
  TcpOptions.to_bytes opts = Ok options_bytes ->
  (length options_bytes mod 4 = 0)%nat.
Proof.
  unfold TcpOptions.to_bytes, TcpOptions.to_bytes_padded. intros H.
  apply bind_ok_inv in H. destruct H as [raw [_ H]].
  apply ok_inj in H. subst options_bytes.
  rewrite length_app. unfold TcpOptions.padding. rewrite repeat_length.
  pose proof (Nat.div_mod_eq (length raw) 4) as Hd.
  pose proof (Nat.mod_upper_bound (length raw) 4 ltac:(lia)) as Hr.
  generalize dependent (length raw). intros n Hd Hr.
  generalize dependent (n mod 4)%nat. intros r Hd Hr.
  assert (Hk : ((n + (4 - r) mod 4) = 4 * (n / 4 + (if (r =? 0)%nat then 0 else 1)))%nat).
  { destruct r as [|[|[|[|r]]]]; [| | | |lia];
      cbn [Nat.sub Nat.modulo Nat.divmod fst snd Nat.eqb]; lia. }
  rewrite Hk, Nat.mul_comm. apply Nat.Div0.mod_mul.
Qed.

Lemma pack_uint_ok (n : nat) (v : Z) :
  0 <= v < 2 ^ (8 * Z.of_nat n) -> Struct.pack_uint n v = Ok (be_bytes n v).
Proof.
  intros Hv. unfold Struct.pack_uint.
  destruct (Z.leb_spec 0 v); [|lia].
  destruct (Z.ltb_spec v (2 ^ (8 * Z.of_nat n))); [|lia]. reflexivity.
Qed.

Lemma replace_nth_length (buf : list byte) :
  forall (i : nat) (v : byte), length (replace_nth buf i v) = length buf.
Proof.
  induction buf as [|h t IH]; intros [|i] v; cbn [replace_nth length]; auto.
Qed.

Lemma field_range (data_offset flag_bits : Z) :
  0 <= data_offset < 16 -> 0 <= flag_bits < 512 ->
  0 <= Z.lor (Z.shiftl data_offset 12) flag_bits < 65536.
Proof.
  intros Hd Hf.
  assert (Hs : 0 <= Z.shiftl data_offset 12 < 65536).
  { rewrite Z.shiftl_mul_pow2 by lia. change (2 ^ 12) with 4096. lia. }
  split; [apply Z.lor_nonneg; lia|].
  destruct (Z.eq_dec (Z.lor (Z.shiftl data_offset 12) flag_bits) 0) as [E|E];
    [lia|].
  assert (Hpos : 0 < Z.lor (Z.shiftl data_offset 12) flag_bits).
  { assert (0 <= Z.lor (Z.shiftl data_offset 12) flag_bits)
      by (apply Z.lor_nonneg; lia). lia. }
  change 65536 with (2 ^ 16). apply Z.log2_lt_pow2; [exact Hpos|].
  rewrite Z.log2_lor by lia.
  apply Z.max_lub_lt.
  - destruct (Z.eq_dec (Z.shiftl data_offset 12) 0) as [E0|E0];
      [rewrite E0; cbn; lia|].
    apply Z.log2_lt_pow2; [lia | change (2 ^ 16) with 65536; lia].
  - destruct (Z.eq_dec flag_bits 0) as [E0|E0]; [rewrite E0; cbn; lia|].
    apply Z.log2_lt_pow2; [lia | change (2 ^ 16) with 65536; lia].
Qed.

(** A packet whose header fields fit their widths, whose encoded options
    are at most 40 bytes, which lies on an IP packet and whose length the
    medium allows, is serialized by the first implementation. *)
Lemma to_bytes_succeeds (medium : LengthConstraint) (p : TcpPacket)
      (ip : IpPacket) (options_bytes : list byte) :
  0 <= __source_port p < 65536 ->
  0 <= __dest_port p < 65536 ->
  0 <= __sequence_number p < 4294967296 ->
  0 <= __ack_number p < 4294967296 ->
  valid_flags p ->
  0 <= __win_size p < 65536 ->
  0 <= __urg_pointer p < 65536 ->
  TcpOptions.to_bytes (__options p) = Ok options_bytes ->
  (length options_bytes <= 40)%nat ->
  underlying_packet p = IpLayer ip ->
  0 <= protocol ip < 256 ->
  20 + Z.of_nat (length options_bytes) + Z.of_nat (length (_payload p)) < 65536 ->
  length_allowed medium (20 + length options_bytes + length (_payload p)) = true ->
  exists packet : list byte, LayersTcp.to_bytes medium p = Ok packet.
Proof.
  intros Hsp Hdp Hsq Hak Hfl Hwin Hurg Hopt Hlen Hip Hproto Hseg Hmed.
  unfold valid_flags in Hfl.
  pose proof (options_to_bytes_aligned _ _ Hopt) as Hal.
  assert (HalZ : Z.of_nat (length options_bytes) mod 4 = 0).
  { change 4 with (Z.of_nat 4). rewrite <- Nat2Z.inj_mod, Hal. reflexivity. }
  unfold LayersTcp.to_bytes. rewrite Hopt. cbn [bind].
  rewrite HalZ. cbn [Z.eqb py_assert bind].
  set (data_offset :=
         TcpUtils.TCP_HEADER_LENGTH + Z.of_nat (length options_bytes) / 4).
  assert (Hdo : 0 <= data_offset < 16).
  { unfold data_offset, TcpUtils.TCP_HEADER_LENGTH.
    pose proof (Z.div_mod (Z.of_nat (length options_bytes)) 4 ltac:(lia)). lia. }
  assert (Hdo4 : data_offset * 4 = 20 + Z.of_nat (length options_bytes)).
  { unfold data_offset, TcpUtils.TCP_HEADER_LENGTH.
    pose proof (Z.div_mod (Z.of_nat (length options_bytes)) 4 ltac:(lia)). lia. }
  pose proof (field_range data_offset (flags (__flags p)) Hdo Hfl) as Hfield.
  remember (Z.lor (Z.shiftl data_offset 12) (flags (__flags p)))
    as data_offset_flags eqn:Efield.
  (* the header *)
  change (Z.to_nat TcpUtils.TCP_HEADER_LENGTH_BYTES) with 20%nat.
  unfold Struct.pack_into, LayersTcp.TCP_HEADER_FORMAT.
  cbn [Struct.pack Struct.pack1 Struct.width].
  rewrite !pack_uint_ok
    by (change (2 ^ (8 * Z.of_nat 2)) with 65536;
        change (2 ^ (8 * Z.of_nat 4)) with 4294967296; lia).
  cbn [bind be_bytes app length bytearray repeat Nat.leb skipn].
  (* the pseudo-header *)
  unfold LayersTcp.__get_pseudo_header, LayersTcp.TCP_PSEUDO_HEADER_FORMAT.
  rewrite Hip. cbn [Struct.pack Struct.pack1 Struct.width bind].
  rewrite !pack_uint_ok
    by (change (2 ^ (8 * Z.of_nat 2)) with 65536;
        change (2 ^ (8 * Z.of_nat 1)) with 256; lia).
  cbn [bind].
  (* the checksum *)
  unfold TcpUtils.calc_tcp_checksum. cbn [bind].
  match goal with
  | |- context [internet_checksum ?x] =>
      pose proof (internet_checksum_range x) as Hc;
      set (checksum := internet_checksum x) in *
  end.
  unfold int_to_bytes. change (2 ^ (8 * Z.of_nat 2)) with 65536.
  destruct (Z.leb_spec 0 checksum); [|lia].
  destruct (Z.ltb_spec checksum 65536); [|lia].
  cbn [andb bind be_bytes app getitem nth_error].
  rewrite setitem_byte by (cbn; lia). cbn [replace_nth bind].
  rewrite setitem_byte by (cbn; lia). cbn [replace_nth bind].
  unfold TcpUtils.validate_packet_length.
  cbn [app length]. rewrite length_app.
  replace (S (S (S (S (S (S (S (S (S (S (S (S (S (S (S (S (S (S (S (S
             (length options_bytes + length (_payload p))))))))))))))))))))))
    with (20 + length options_bytes + length (_payload p))%nat by lia.
  rewrite Hmed. eexists. reflexivity.
Qed.

(** Such a packet is serialized by the second implementation when its
    payload has an even number of bytes. *)
Lemma to_bytes_succeeds_even (medium : LengthConstraint) (p : TcpPacket)
      (ip : IpPacket) (options_bytes : list byte) :
  0 <= __source_port p < 65536 ->
  0 <= __dest_port p < 65536 ->
  0 <= __sequence_number p < 4294967296 ->
  0 <= __ack_number p < 4294967296 ->
  valid_flags p ->
  0 <= __win_size p < 65536 ->
  0 <= __urg_pointer p < 65536 ->
  TcpOptions.to_bytes (__options p) = Ok options_bytes ->
  (length options_bytes <= 40)%nat ->
  Nat.even (length (_payload p)) = true ->
  underlying_packet p = IpLayer ip ->
  0 <= protocol ip < 256 ->
  20 + Z.of_nat (length options_bytes) + Z.of_nat (length (_payload p)) < 65536 ->
  length_allowed medium (20 + length options_bytes + length (_payload p)) = true ->
  exists packet : list byte, LayersTransportTcp.to_bytes medium p = Ok packet.
Proof.
  intros Hsp Hdp Hsq Hak Hfl Hwin Hurg Hopt Hlen Hev Hip Hproto Hseg Hmed.
  unfold valid_flags in Hfl.
  pose proof (options_to_bytes_aligned _ _ Hopt) as Hal.
  assert (HalZ : Z.of_nat (length options_bytes) mod 4 = 0).
  { change 4 with (Z.of_nat 4). rewrite <- Nat2Z.inj_mod, Hal. reflexivity. }
  unfold LayersTransportTcp.to_bytes. rewrite Hopt. cbn [bind].
  rewrite HalZ. cbn [Z.eqb py_assert bind].
  set (data_offset :=
         TcpUtils.TCP_HEADER_LENGTH + Z.of_nat (length options_bytes) / 4).
  assert (Hdo : 0 <= data_offset < 16).
  { unfold data_offset, TcpUtils.TCP_HEADER_LENGTH.
    pose proof (Z.div_mod (Z.of_nat (length options_bytes)) 4 ltac:(lia)). lia. }
  assert (Hdo4 : data_offset * 4 = 20 + Z.of_nat (length options_bytes)).
  { unfold data_offset, TcpUtils.TCP_HEADER_LENGTH.
    pose proof (Z.div_mod (Z.of_nat (length options_bytes)) 4 ltac:(lia)). lia. }
  pose proof (field_range data_offset (flags (__flags p)) Hdo Hfl) as Hfield.
  remember (Z.lor (Z.shiftl data_offset 12) (flags (__flags p)))
    as data_offset_flags eqn:Efield.
  (* the header *)
  change (Z.to_nat TcpUtils.TCP_HEADER_LENGTH_BYTES) with 20%nat.
  unfold Struct.pack_into, LayersTransportTcp.TCP_HEADER_FORMAT.
  cbn [Struct.pack Struct.pack1 Struct.width].
  rewrite !pack_uint_ok
    by (change (2 ^ (8 * Z.of_nat 2)) with 65536;
        change (2 ^ (8 * Z.of_nat 4)) with 4294967296; lia).
  cbn [bind be_bytes app length bytearray repeat Nat.leb skipn].
  (* the pseudo-header *)
  unfold TransportLayerUtils.get_pseudo_header, TransportLayerUtils.PSEUDO_HEADER_FORMAT.
  rewrite Hip. cbn [Struct.pack Struct.pack1 Struct.width bind].
  rewrite !pack_uint_ok
    by (change (2 ^ (8 * Z.of_nat 2)) with 65536;
        change (2 ^ (8 * Z.of_nat 1)) with 256; lia).
  cbn [bind].
  (* the checksum *)
  rewrite calc_checksum_even.
  2:{ match goal with
      | |- Nat.even (length ?l) = true =>
          assert (Hl : length l
                       = (2 * 16 + (length options_bytes
                                    + length (_payload p)))%nat)
      end.
      { unfold Struct.pack_bytes.
        repeat progress (rewrite ?length_app, ?repeat_length, ?length_firstn,
                           ?be_bytes_length; cbn [length]).
        lia. }
      rewrite Hl, !Nat.even_add, Nat.even_mul, Hev. cbn [Nat.even orb].
      pose proof (Nat.div_mod_eq (length options_bytes) 4) as Hd.
      rewrite Hal, Nat.add_0_r in Hd. rewrite Hd.
      rewrite Nat.even_mul. reflexivity. }
  cbn [bind]. rewrite lnot_land_ffff.
  match goal with
  | |- context [65535 - ?x mod 65536] =>
      pose proof (Z.mod_pos_bound x 65536 ltac:(lia)) as Hc;
      set (checksum := 65535 - x mod 65536) in *
  end.
  unfold int_to_bytes. change (2 ^ (8 * Z.of_nat 2)) with 65536.
  destruct (Z.leb_spec 0 checksum); [|lia].
  destruct (Z.ltb_spec checksum 65536); [|lia].
  cbn [andb bind be_bytes app getitem nth_error].
  rewrite setitem_byte by (cbn; lia). cbn [replace_nth bind].
  rewrite setitem_byte by (cbn; lia). cbn [replace_nth bind].
  unfold TransportLayerUtils.validate_packet_length.
  cbn [app length]. rewrite length_app.
  replace (S (S (S (S (S (S (S (S (S (S (S (S (S (S (S (S (S (S (S (S
             (length options_bytes + length (_payload p))))))))))))))))))))))
    with (20 + length options_bytes + length (_payload p))%nat by lia.
  rewrite Hmed. eexists. reflexivity.
Qed.

(** * Further properties of the code *)

(** ** Utils: single bits *)

(** X1: after [set_bit] with a true value the bits of a non-zero mask
    test as set, and after [set_bit] with a false value they test as
    clear, whatever the number was. *)
Theorem set_bit_then_is_bit_set (num bit_mask : Z) :
  bit_mask <> 0 ->
  Utils.is_bit_set (Utils.set_bit num bit_mask true) bit_mask = true /\
  Utils.is_bit_set (Utils.set_bit num bit_mask false) bit_mask = false.
Proof.
  intros Hm. unfold Utils.is_bit_set, Utils.set_bit. split.
  - assert (E : Z.land (Z.lor num bit_mask) bit_mask = bit_mask).
    { apply Z.bits_inj'. intros n Hn. rewrite Z.land_spec, Z.lor_spec.
      destruct (Z.testbit num n), (Z.testbit bit_mask n); reflexivity. }
    rewrite E. apply negb_true_iff, Z.eqb_neq. exact Hm.
  - rewrite <- Z.land_assoc, (Z.land_comm (Z.lnot bit_mask)), Z.land_lnot_diag.
    rewrite Z.land_0_r. reflexivity.
Qed.

Lemma set_bit_then_is_bit_set_witness :
  Utils.is_bit_set (Utils.set_bit 5 16 true) 16 = true /\
  Utils.is_bit_set (Utils.set_bit 21 16 false) 16 = false.
Proof.
  split.
  - exact (proj1 (set_bit_then_is_bit_set 5 16 ltac:(discriminate))).
  - exact (proj2 (set_bit_then_is_bit_set 21 16 ltac:(discriminate))).
Defined.

(** X2: [set_bit] touches the bits of its mask only: under any mask
    that shares no bit with it, the number reads as before. *)
Theorem set_bit_keeps_other_bits (num bit_mask other_mask : Z) (value : bool) :
  Z.land bit_mask other_mask = 0 ->
  Z.land (Utils.set_bit num bit_mask value) other_mask = Z.land num other_mask /\
  Utils.is_bit_set (Utils.set_bit num bit_mask value) other_mask
  = Utils.is_bit_set num other_mask.
Proof.
  intros Hd.
  assert (H : Z.land (Utils.set_bit num bit_mask value) other_mask
              = Z.land num other_mask).
  { unfold Utils.set_bit. destruct value.
    - rewrite Z.land_lor_distr_l, Hd. apply Z.lor_0_r.
    - rewrite <- Z.land_assoc. f_equal.
      apply Z.bits_inj'. intros n Hn.
      rewrite Z.land_spec, Z.lnot_spec by exact Hn.
      apply (f_equal (fun z => Z.testbit z n)) in Hd.
      rewrite Z.land_spec, Z.bits_0 in Hd.
      destruct (Z.testbit bit_mask n), (Z.testbit other_mask n);
        try reflexivity; discriminate Hd. }
  split; [exact H|]. unfold Utils.is_bit_set. rewrite H. reflexivity.
Qed.

Lemma set_bit_keeps_other_bits_witness :
  Z.land (Utils.set_bit 21 16 false) 4 = Z.land 21 4.
Proof. exact (proj1 (set_bit_keeps_other_bits 21 16 4 false eq_refl)). Defined.

(** ** Utils: the checksum *)

(** X3: whenever [calc_checksum] returns, the value is a 16-bit one and
    the input has an even number of bytes. *)
Theorem calc_checksum_is_16_bit (byte_buffer : list byte) (checksum : Z) :
  Utils.calc_checksum byte_buffer = Ok checksum ->
  0 <= checksum <= 65535 /\ Nat.even (length byte_buffer) = true.
Proof.
  intros H. rewrite calc_checksum_paired in H.
  destruct (Nat.even (length byte_buffer)) eqn:Hev.
  - rewrite (paired_sum_even (length byte_buffer)) in H by auto.
    cbn [bind] in H. apply ok_inj in H. subst checksum.
    rewrite lnot_land_ffff.
    match goal with
    | |- context [?x mod 65536] =>
        pose proof (Z.mod_pos_bound x 65536 ltac:(lia))
    end.
    split; [lia | reflexivity].
  - rewrite (paired_sum_odd (length byte_buffer)) in H.
    + discriminate H.
    + lia.
    + rewrite <- Nat.negb_even, Hev. reflexivity.
Qed.

Lemma calc_checksum_is_16_bit_witness :
  0 <= 0xfeff <= 65535 /\ Nat.even (length [x01; x00]) = true.
Proof. exact (calc_checksum_is_16_bit [x01; x00] 0xfeff eq_refl). Defined.

Lemma word_sum_app (n : nat) :
  forall l1 l2 : list byte,
    (length l1 <= n)%nat -> Nat.even (length l1) = true ->
    word_sum (l1 ++ l2) = word_sum l1 + word_sum l2.
Proof.
  induction n as [|n IH]; intros l1 l2 Hn Hev.
  - destruct l1; [reflexivity | simpl in Hn; lia].
  - destruct l1 as [|hi [|lo rest]].
    + reflexivity.
    + discriminate Hev.
    + cbn [app word_sum]. rewrite IH; [lia | simpl in Hn; lia | exact Hev].
Qed.

Lemma fold_carry_positive (fuel : nat) :
  forall acc, 0 < acc -> 0 < fold_carry fuel acc.
Proof.
  induction fuel as [|fuel IH]; intros acc Hacc; cbn [fold_carry]; [exact Hacc|].
  destruct (Z.eqb_spec (Z.shiftr acc 16) 0) as [E|E]; [exact Hacc|].
  apply IH. rewrite land_ffff, Z.shiftr_div_pow2 in * by lia.
  change (2 ^ 16) with 65536 in *.
  pose proof (Z.mod_pos_bound acc 65536 ltac:(lia)).
  assert (0 <= acc / 65536) by (apply Z.div_pos; lia). lia.
Qed.

(** X4: the checksum verifies.  When [calc_checksum] is applied to an
    input of even length whose folded sum produces no second carry, the
    input followed by the two bytes of the returned value sums, in one's
    complement, to 0xFFFF, so that the Internet checksum of the whole
    is 0. *)
Theorem calc_checksum_verifies (byte_buffer : list byte) :
  Nat.even (length byte_buffer) = true ->
  word_sum byte_buffer mod 65536 + word_sum byte_buffer / 65536 < 65536 ->
  exists checksum : Z,
    Utils.calc_checksum byte_buffer = Ok checksum /\
    ones_complement_sum (byte_buffer ++ be_bytes 2 checksum) = 0xffff /\
    internet_checksum (byte_buffer ++ be_bytes 2 checksum) = 0.
Proof.
  intros Hev Hc. rewrite calc_checksum_even by exact Hev.
  eexists. split; [reflexivity|].
  rewrite lnot_land_ffff.
  pose proof (word_sum_nonneg byte_buffer) as Hs.
  set (acc := word_sum byte_buffer) in *.
  rewrite Z.shiftr_div_pow2 by lia. change (2 ^ 16) with 65536.
  pose proof (Z.div_mod acc 65536 ltac:(lia)) as Hdm.
  pose proof (Z.mod_pos_bound acc 65536 ltac:(lia)) as Hm.
  assert (Hq : 0 <= acc / 65536) by (apply Z.div_pos; lia).
  assert (Hcode : (acc + acc / 65536) mod 65536 = acc mod 65536 + acc / 65536).
  { replace (acc + acc / 65536)
      with (acc mod 65536 + acc / 65536 + (acc / 65536) * 65536) by lia.
    rewrite Z.mod_add by lia. apply Z.mod_small. lia. }
  rewrite Hcode.
  set (checksum := 65535 - (acc mod 65536 + acc / 65536)).
  assert (Hck : 0 <= checksum < 65536) by (unfold checksum; lia).
  assert (Hsum : word_sum (byte_buffer ++ be_bytes 2 checksum)
                 = 65535 * (acc / 65536 + 1)).
  { rewrite (word_sum_app (length byte_buffer)) by auto.
    fold acc. cbn [be_bytes app word_sum].
    rewrite !byte_to_of_Z, Z.shiftl_mul_pow2, Z.shiftr_div_pow2 by lia.
    change (2 ^ 8) with 256.
    rewrite (Z.mod_small (checksum / 256))
      by (split; [apply Z.div_pos; lia | apply Z.div_lt_upper_bound; lia]).
    pose proof (Z.div_mod checksum 256 ltac:(lia)). unfold checksum in *. lia. }
  assert (Hones : ones_complement_sum (byte_buffer ++ be_bytes 2 checksum) = 0xffff).
  { unfold ones_complement_sum. rewrite Hsum.
    set (k := acc / 65536 + 1) in *.
    destruct (fold_carry_bound (S (Z.to_nat (65535 * k / 65535))) (65535 * k))
      as [Hb Hmod].
    - rewrite Z.mul_comm, Z.div_mul by lia.
      rewrite Nat2Z.inj_succ, Z2Nat.id by lia. lia.
    - pose proof (fold_carry_positive (S (Z.to_nat (65535 * k / 65535)))
                    (65535 * k) ltac:(lia)) as Hpos.
      rewrite Z.mul_comm, Z.mod_mul in Hmod by lia.
      rewrite (Z.mul_comm 65535 k) in Hpos, Hb.
      set (r := fold_carry (S (Z.to_nat (k * 65535 / 65535))) (k * 65535)) in *.
      rewrite (Z.mul_comm 65535 k).
      fold r.
      pose proof (Z.div_mod r 65535 ltac:(lia)) as Hr.
      rewrite Hmod in Hr.
      assert (r / 65535 = 1) by lia. change 0xffff with 65535. lia. }
  split; [exact Hones|].
  unfold internet_checksum. rewrite Hones. reflexivity.
Qed.

Lemma calc_checksum_verifies_witness :
  exists checksum : Z,
    Utils.calc_checksum [x45; x00; x01; x89] = Ok checksum /\
    ones_complement_sum ([x45; x00; x01; x89] ++ be_bytes 2 checksum) = 0xffff /\
    internet_checksum ([x45; x00; x01; x89] ++ be_bytes 2 checksum) = 0.
Proof.
  refine (calc_checksum_verifies [x45; x00; x01; x89] eq_refl _).
  vm_compute. reflexivity.
Defined.

Lemma calc_checksum_without_second_carry_witness :
  Utils.calc_checksum [x45; x00; x01; x89]
  = Ok (internet_checksum [x45; x00; x01; x89]).
Proof.
  refine (calc_checksum_without_second_carry [x45; x00; x01; x89] eq_refl _).
  vm_compute. reflexivity.
Defined.

(** ** TcpControlBits *)

(** X5: the constructor packs its nine Booleans at the bits of the nine
    masks, NS at 256 down to FIN at 1, and each accessor reads back the
    Boolean its flag was built from; the packed integer has 9 bits. *)
Theorem init_packs_the_flags (ns cwr ece urg ack psh rst syn fin : bool) :
  let x := TcpControlBits.__init__ ns cwr ece urg ack psh rst syn fin in
  flags x
  = 256 * Z.b2z ns + 128 * Z.b2z cwr + 64 * Z.b2z ece + 32 * Z.b2z urg
    + 16 * Z.b2z ack + 8 * Z.b2z psh + 4 * Z.b2z rst + 2 * Z.b2z syn
    + Z.b2z fin /\
  0 <= flags x < 512 /\
  TcpControlBits.ns x = ns /\ TcpControlBits.cwr x = cwr /\
  TcpControlBits.ece x = ece /\ TcpControlBits.urg x = urg /\
  TcpControlBits.ack x = ack /\ TcpControlBits.psh x = psh /\
  TcpControlBits.rst x = rst /\ TcpControlBits.syn x = syn /\
  TcpControlBits.fin x = fin.
Proof.
  destruct ns, cwr, ece, urg, ack, psh, rst, syn, fin;
    vm_compute; repeat split; reflexivity || discriminate.
Qed.

Lemma is_bit_set_testbit (bits k : Z) :
  0 <= k -> Utils.is_bit_set bits (2 ^ k) = Z.testbit bits k.
Proof.
  intros Hk. unfold Utils.is_bit_set.
  destruct (Z.testbit bits k) eqn:Eb.
  - apply negb_true_iff, Z.eqb_neq. intros H.
    apply (f_equal (fun z => Z.testbit z k)) in H.
    rewrite Z.land_spec, Z.bits_0, Eb, Z.pow2_bits_true in H by exact Hk.
    discriminate H.
  - apply negb_false_iff, Z.eqb_eq. apply Z.bits_inj'. intros n Hn.
    rewrite Z.land_spec, Z.bits_0, Z.pow2_bits_eqb by exact Hk.
    destruct (Z.eqb_spec k n) as [<-|]; [rewrite Eb; reflexivity|].
    apply andb_false_r.
Qed.

Lemma from_int_low_bits (bits : Z) :
  TcpControlBits.from_int bits = TcpControlBits.from_int (Z.land bits 511).
Proof.
  unfold TcpControlBits.from_int, Utils.is_bit_set.
  rewrite <- !(Z.land_assoc bits 511). reflexivity.
Qed.

Lemma land_511_range (bits : Z) : 0 <= Z.land bits 511 < 512.
Proof.
  change 511 with (Z.ones 9). rewrite Z.land_ones by lia.
  apply Z.mod_pos_bound. reflexivity.
Qed.

Lemma from_int_eq (bits : Z) :
  TcpControlBits.from_int bits = mkTcpControlBits (Z.land bits 511).
Proof.
  rewrite from_int_low_bits.
  apply (from_int_flags (mkTcpControlBits (Z.land bits 511))).
  apply land_511_range.
Qed.

(** X6: [from_int] accepts every integer and keeps its 9 low bits only:
    the packed integer of the result is [bits & 511], and the accessors
    read bits 8 (NS) down to 0 (FIN) of the argument. *)
Theorem from_int_keeps_low_9_bits (bits : Z) :
  let x := TcpControlBits.from_int bits in
  flags x = Z.land bits 511 /\
  TcpControlBits.ns x = Z.testbit bits 8 /\
  TcpControlBits.cwr x = Z.testbit bits 7 /\
  TcpControlBits.ece x = Z.testbit bits 6 /\
  TcpControlBits.urg x = Z.testbit bits 5 /\
  TcpControlBits.ack x = Z.testbit bits 4 /\
  TcpControlBits.psh x = Z.testbit bits 3 /\
  TcpControlBits.rst x = Z.testbit bits 2 /\
  TcpControlBits.syn x = Z.testbit bits 1 /\
  TcpControlBits.fin x = Z.testbit bits 0.
Proof.
  cbv zeta.
  rewrite from_int_eq. split; [reflexivity|].
  unfold TcpControlBits.ns, TcpControlBits.cwr, TcpControlBits.ece,
    TcpControlBits.urg, TcpControlBits.ack, TcpControlBits.psh,
    TcpControlBits.rst, TcpControlBits.syn, TcpControlBits.fin,
    BitFlags.is_flag_set.
  cbn [flags].
  assert (Hbit : forall k, 0 <= k < 9 ->
                           Utils.is_bit_set (Z.land bits 511) (2 ^ k)
                           = Z.testbit bits k).
  { intros k Hk. rewrite is_bit_set_testbit by lia.
    rewrite Z.land_spec. change 511 with (Z.ones 9).
    rewrite Z.ones_spec_low by lia. apply andb_true_r. }
  repeat split.
  - apply (Hbit 8). lia.
  - apply (Hbit 7). lia.
  - apply (Hbit 6). lia.
  - apply (Hbit 5). lia.
  - apply (Hbit 4). lia.
  - apply (Hbit 3). lia.
  - apply (Hbit 2). lia.
  - apply (Hbit 1). lia.
  - apply (Hbit 0). lia.
Qed.

(** X7: the string form tells 9-bit flag sets apart: two flag sets with
    the same string have the same packed integer. *)
Theorem str_determines_the_flags (x y : TcpControlBits) :
  0 <= flags x < 512 -> 0 <= flags y < 512 ->
  TcpControlBits.__str__ x = TcpControlBits.__str__ y ->
  flags x = flags y.
Proof.
  intros Hx Hy Hs.
  assert (Hall :
            let strs := map (fun n => TcpControlBits.__str__
                                        (mkTcpControlBits (Z.of_nat n)))
                            (seq 0 512) in
            forallb (fun i =>
              forallb (fun j =>
                implb (String.eqb (nth i strs EmptyString) (nth j strs EmptyString))
                      (i =? j)%nat)
                (seq 0 512))
              (seq 0 512) = true) by (vm_compute; reflexivity).
  cbv zeta in Hall. rewrite forallb_forall in Hall.
  specialize (Hall (Z.to_nat (flags x))).
  rewrite forallb_forall in Hall by idtac.
  assert (Hix : In (Z.to_nat (flags x)) (seq 0 512)) by (apply in_seq; lia).
  assert (Hiy : In (Z.to_nat (flags y)) (seq 0 512)) by (apply in_seq; lia).
  specialize (Hall Hix (Z.to_nat (flags y)) Hiy).
  set (f := fun n => TcpControlBits.__str__ (mkTcpControlBits (Z.of_nat n))) in *.
  assert (Hnth : forall n, (n < 512)%nat ->
                           nth n (map f (seq 0 512)) EmptyString = f n).
  { intros n Hn. rewrite (nth_indep _ EmptyString (f 0%nat))
      by (rewrite length_map, length_seq; lia).
    rewrite map_nth, seq_nth by lia. reflexivity. }
  rewrite (Hnth (Z.to_nat (flags x))), (Hnth (Z.to_nat (flags y))) in Hall by lia.
  unfold f in Hall. rewrite !Z2Nat.id in Hall by lia.
  destruct x as [fx], y as [fy]. cbn [flags] in *.
  rewrite Hs, String.eqb_refl in Hall. cbn [implb] in Hall.
  apply Nat.eqb_eq in Hall. lia.
Qed.

Lemma str_determines_the_flags_witness :
  flags (TcpControlBits.from_int 18) = flags (mkTcpControlBits 18).
Proof.
  refine (str_determines_the_flags (TcpControlBits.from_int 18)
            (mkTcpControlBits 18) _ _ eq_refl);
    vm_compute; split; discriminate || reflexivity.
Defined.

(** ** Parsing: edge behaviour and invariants *)

(** X8: an input of fewer than 20 bytes, the empty input included, is
    refused by both implementations with the error of [struct.unpack],
    before any field is looked at. *)
Theorem from_bytes_short_input (packet_bytes : list byte) :
  (length packet_bytes < 20)%nat ->
  LayersTcp.from_bytes packet_bytes = Raise StructError /\
  LayersTransportTcp.from_bytes packet_bytes = Raise StructError.
Proof.
  intros H.
  split; [|rewrite from_bytes_same]; apply from_bytes_truncated; exact H.
Qed.

Lemma from_bytes_short_input_witness :
  LayersTcp.from_bytes [] = Raise StructError /\
  LayersTransportTcp.from_bytes [] = Raise StructError.
Proof. apply (from_bytes_short_input []). cbn. lia. Defined.

(** X9: the checksum field is not read: whatever stands in bytes 16 and
    17 of the input, [from_bytes] gives the same result, a packet or an
    error. *)
Theorem from_bytes_ignores_checksum (packet_bytes : list byte) (c0 c1 : byte) :
  LayersTcp.from_bytes (replace_nth (replace_nth packet_bytes 16 c0) 17 c1)
  = LayersTcp.from_bytes packet_bytes /\
  LayersTransportTcp.from_bytes
    (replace_nth (replace_nth packet_bytes 16 c0) 17 c1)
  = LayersTransportTcp.from_bytes packet_bytes.
Proof.
  assert (H : LayersTcp.from_bytes
                (replace_nth (replace_nth packet_bytes 16 c0) 17 c1)
              = LayersTcp.from_bytes packet_bytes).
  { destruct (Nat.ltb_spec (length packet_bytes) 20) as [Hlt|Hge].
    - rewrite !from_bytes_truncated; [reflexivity | exact Hlt |].
      rewrite !replace_nth_length. exact Hlt.
    - do 20 (destruct packet_bytes as [|? packet_bytes]; [simpl in Hge; lia|]).
      cbn [replace_nth]. rewrite !from_bytes_header. reflexivity. }
  split; [exact H|]. rewrite !from_bytes_same. exact H.
Qed.

Lemma be_value_range (bs : list byte) :
  0 <= be_value bs < 256 ^ Z.of_nat (length bs).
Proof.
  induction bs as [|b bs IH] using rev_ind.
  - cbn. lia.
  - rewrite be_value_app, length_app. cbn [fold_left length].
    replace (Z.of_nat (length bs + 1)) with (Z.of_nat (length bs) + 1) by lia.
    rewrite Z.pow_add_r by lia. change (256 ^ 1) with 256.
    pose proof (byte_to_Z_range b). lia.
Qed.

Lemma reserved_bits_zero (field : Z) :
  Z.land (Z.shiftr field 9) 7 = 0 -> reserved_bit_set field = false.
Proof.
  intros E. unfold reserved_bit_set.
  assert (Hb : forall i, 0 <= i < 3 -> Z.testbit field (i + 9) = false).
  { intros i Hi.
    assert (Ht : Z.testbit (Z.land (Z.shiftr field 9) 7) i = false)
      by (rewrite E; apply Z.bits_0).
    rewrite Z.land_spec, Z.shiftr_spec in Ht by lia.
    assert (H7 : Z.testbit 7 i = true).
    { assert (i = 0 \/ i = 1 \/ i = 2) as [-> | [-> | ->]] by lia; reflexivity. }
    rewrite H7, andb_true_r in Ht. exact Ht. }
  pose proof (Hb 0 ltac:(lia)) as H9.
  pose proof (Hb 1 ltac:(lia)) as H10.
  pose proof (Hb 2 ltac:(lia)) as H11.
  change (0 + 9) with 9 in H9. change (1 + 9) with 10 in H10.
  change (2 + 9) with 11 in H11.
  rewrite H9, H10, H11. reflexivity.
Qed.

(** What a successful parse of an input with its 20 header bytes says. *)
Lemma from_bytes_ok_inv
      (b0 b1 b2 b3 b4 b5 b6 b7 b8 b9 b10 b11 b12 b13 b14 b15 b16 b17 b18 b19 : byte)
      (rest : list byte) (p : TcpPacket) :
  LayersTcp.from_bytes
    (b0 :: b1 :: b2 :: b3 :: b4 :: b5 :: b6 :: b7 :: b8 :: b9 :: b10 :: b11
        :: b12 :: b13 :: b14 :: b15 :: b16 :: b17 :: b18 :: b19 :: rest)
  = Ok p ->
  let field := be_value [b12; b13] in
  let options_len := (Z.shiftr field 12 - 5) * 4 in
  Z.land (Z.shiftr field 9) 7 = 0 /\
  TcpOptions.from_bytes (slice_to rest options_len) = Ok (__options p) /\
  p = mkTcpPacket (be_value [b0; b1]) (be_value [b2; b3])
        (be_value [b4; b5; b6; b7]) (be_value [b8; b9; b10; b11])
        (TcpControlBits.from_int (Z.land field 511))
        (be_value [b14; b15]) (be_value [b18; b19])
        (__options p) (slice_from rest options_len) NoLayer NoLayer.
Proof.
  rewrite from_bytes_header. cbv zeta.
  destruct (Z.eqb_spec (Z.land (Z.shiftr (be_value [b12; b13]) 9) 7) 0) as [E|E];
    cbn [negb]; [|discriminate].
  intros H. apply bind_ok_inv in H. destruct H as [options [Hopt H]].
  rewrite init_ok_iff in H.
  destruct (_ && _); [|discriminate H].
  apply ok_inj in H. subst p. cbn [__options]. auto.
Qed.

(** X10: every packet that [from_bytes] returns comes from an input of
    at least 20 bytes whose reserved bits are zero; its ports, window
    size and urgent pointer are 16-bit values, its sequence and
    acknowledgment numbers 32-bit values, its flags a 9-bit set, and its
    links to the neighbouring layers are unset. *)
Theorem from_bytes_result_is_well_formed (packet_bytes : list byte)
        (p : TcpPacket) :
  LayersTcp.from_bytes packet_bytes = Ok p ->
  (20 <= length packet_bytes)%nat /\
  (exists field, offset_flags_field packet_bytes = Some field /\
                 reserved_bit_set field = false) /\
  0 <= __source_port p <= 65535 /\
  0 <= __dest_port p <= 65535 /\
  0 <= __sequence_number p <= 4294967295 /\
  0 <= __ack_number p <= 4294967295 /\
  0 <= flags (__flags p) <= 511 /\
  0 <= __win_size p <= 65535 /\
  0 <= __urg_pointer p <= 65535 /\
  underlying_packet p = NoLayer /\
  upper_layer p = NoLayer.
Proof.
  intros H.
  destruct (Nat.ltb_spec (length packet_bytes) 20) as [Hlt|Hge].
  { rewrite from_bytes_truncated in H by exact Hlt. discriminate H. }
  split; [exact Hge|].
  do 20 (destruct packet_bytes as [|? packet_bytes]; [simpl in Hge; lia|]).
  apply from_bytes_ok_inv in H. cbv zeta in H. destruct H as (Hres & _ & Hp).
  split.
  { eexists. split; [reflexivity|]. apply reserved_bits_zero. exact Hres. }
  rewrite Hp. cbn [__source_port __dest_port __sequence_number __ack_number
                   __flags __win_size __urg_pointer underlying_packet upper_layer].
  rewrite from_int_eq. cbn [flags].
  match goal with
  | |- context [Z.land (Z.land ?f 511) 511] =>
      pose proof (land_511_range (Z.land f 511))
  end.
  repeat match goal with
         | |- context [be_value ?l] =>
             lazymatch goal with
             | _ : 0 <= be_value l < _ |- _ => fail
             | _ => pose proof (be_value_range l)
             end
         end.
  cbn [length] in *.
  change (256 ^ Z.of_nat 2) with 65536 in *.
  change (256 ^ Z.of_nat 4) with 4294967296 in *.
  repeat split; try lia; try reflexivity.
Qed.

Lemma from_bytes_result_is_well_formed_witness :
  (20 <= length scenario_bytes)%nat /\
  0 <= flags (__flags (parsed scenario_packet scenario_options)) <= 511.
Proof.
  pose proof (from_bytes_result_is_well_formed scenario_bytes
                (parsed scenario_packet scenario_options) eq_refl) as H.
  split; [exact (proj1 H) | exact (proj1 (proj2 (proj2 (proj2 (proj2 (proj2 (proj2 H)))))))].
Defined.

(** X11: for a data offset of at least 5 the payload of the parsed
    packet is the input from byte 4 * data offset on (empty when the
    input ends before), and its options are decoded from the bytes
    between the fixed header and that position; a data offset that
    points past the end of the input raises no error of its own. *)
Theorem from_bytes_payload_position (packet_bytes : list byte) (p : TcpPacket)
        (field : Z) :
  LayersTcp.from_bytes packet_bytes = Ok p ->
  offset_flags_field packet_bytes = Some field ->
  5 <= data_offset_of field ->
  _payload p = skipn (Z.to_nat (4 * data_offset_of field)) packet_bytes /\
  TcpOptions.from_bytes
    (firstn (Z.to_nat (4 * data_offset_of field) - 20) (skipn 20 packet_bytes))
  = Ok (__options p).
Proof.
  intros H Hf Hd.
  destruct (Nat.ltb_spec (length packet_bytes) 20) as [Hlt|Hge].
  { rewrite from_bytes_truncated in H by exact Hlt. discriminate H. }
  do 20 (destruct packet_bytes as [|? packet_bytes]; [simpl in Hge; lia|]).
  apply from_bytes_ok_inv in H. cbv zeta in H. destruct H as (_ & Hopt & Hp).
  cbn [offset_flags_field skipn] in Hf. apply (f_equal (fun o => match o with Some z => z | None => 0 end)) in Hf.
  cbn beta iota in Hf. unfold data_offset_of in *. rewrite Hf in *.
  set (d := Z.shiftr field 12) in *.
  assert (Hn : Z.to_nat (4 * d) = (20 + Z.to_nat ((d - 5) * 4))%nat) by lia.
  unfold slice_to, slice_from in *.
  destruct (Z.ltb_spec ((d - 5) * 4) 0) as [Hneg|_]; [lia|].
  rewrite Hn. split.
  - rewrite Hp at 1. reflexivity.
  - replace (20 + Z.to_nat ((d - 5) * 4) - 20)%nat
      with (Z.to_nat ((d - 5) * 4)) by lia.
    exact Hopt.
Qed.

Lemma from_bytes_payload_position_witness :
  _payload (parsed scenario_packet scenario_options)
  = skipn (Z.to_nat (4 * data_offset_of 0x8010)) scenario_bytes.
Proof.
  refine (proj1 (from_bytes_payload_position scenario_bytes
                   (parsed scenario_packet scenario_options) 0x8010
                   eq_refl eq_refl _)).
  vm_compute. discriminate.
Defined.

(** ** Equality of packets *)

Lemma list_eqb_eq {A : Type} (eqb : A -> A -> bool) :
  (forall a b, eqb a b = true <-> a = b) ->
  forall l1 l2, list_eqb eqb l1 l2 = true <-> l1 = l2.
Proof.
  intros Heq. induction l1 as [|a l1 IH]; intros [|b l2]; cbn [list_eqb];
    try (split; [discriminate | discriminate]); [tauto|].
  rewrite andb_true_iff, Heq, IH. split.
  - intros [-> ->]. reflexivity.
  - intros H. injection H as -> ->. auto.
Qed.

Lemma byte_eqb_eq (a b : byte) : Byte.eqb a b = true <-> a = b.
Proof. split; [apply Byte.byte_dec_bl | apply Byte.byte_dec_lb]. Qed.

Lemma bytes_eqb_eq (l1 l2 : list byte) : bytes_eqb l1 l2 = true <-> l1 = l2.
Proof. apply list_eqb_eq. exact byte_eqb_eq. Qed.

Lemma TcpOption_eqb_eq (a b : TcpOption) : TcpOption_eqb a b = true <-> a = b.
Proof.
  destruct a, b; cbn [TcpOption_eqb];
    try (split; [discriminate | discriminate]); try tauto.
  - rewrite andb_true_iff, byte_eqb_eq, (list_eqb_eq Z.eqb Z.eqb_eq).
    split; [intros [-> ->]; reflexivity | intros H; injection H as -> ->; auto].
  - rewrite andb_true_iff, byte_eqb_eq, bytes_eqb_eq.
    split; [intros [-> ->]; reflexivity | intros H; injection H as -> ->; auto].
Qed.

Lemma Layer_eqb_eq (a b : Layer) : Layer_eqb a b = true <-> a = b.
Proof.
  destruct a as [|[s1 d1 p1]|n1], b as [|[s2 d2 p2]|n2]; cbn [Layer_eqb];
    try (split; [discriminate | discriminate]); try tauto.
  - unfold IpPacket_eqb. cbn [source_addr_raw dest_addr_raw protocol].
    rewrite !andb_true_iff, !bytes_eqb_eq, Z.eqb_eq.
    split; [intros [[-> ->] ->]; reflexivity
           | intros H; injection H as -> -> ->; auto].
  - rewrite String.eqb_eq.
    split; [intros ->; reflexivity | intros H; injection H as ->; auto].
Qed.

Lemma same_fields_eq (p q : TcpPacket) :
  same_fields p q = true <->
  __dest_port p = __dest_port q /\ __source_port p = __source_port q /\
  __sequence_number p = __sequence_number q /\
  __ack_number p = __ack_number q /\ __flags p = __flags q /\
  __win_size p = __win_size q /\ __urg_pointer p = __urg_pointer q /\
  __options p = __options q /\ _payload p = _payload q.
Proof.
  unfold same_fields.
  rewrite !andb_true_iff, !Z.eqb_eq, bytes_eqb_eq,
    (list_eqb_eq TcpOption_eqb TcpOption_eqb_eq).
  destruct (__flags p) as [fp], (__flags q) as [fq]. cbn [flags].
  split.
  - intros [[[[[[[[? ?] ?] ?] ->] ?] ?] ?] ?]. repeat split; assumption.
  - intros (? & ? & ? & ? & Hfl & ? & ? & ? & ?). injection Hfl as ->.
    repeat split; assumption.
Qed.

(** X12: a comparison of two packets answers [True] exactly when the
    attributes it looks at are equal: in the first class all but the
    upper layer, in the second all but the underlying packet; so a
    packet equals itself in both. *)
Theorem eq_is_attribute_equality (p q : TcpPacket) :
  (LayersTcp.__eq__ p (ObjTcpPacket q) = PyBool true <->
   __dest_port p = __dest_port q /\ __source_port p = __source_port q /\
   __sequence_number p = __sequence_number q /\
   __ack_number p = __ack_number q /\ __flags p = __flags q /\
   __win_size p = __win_size q /\ __urg_pointer p = __urg_pointer q /\
   __options p = __options q /\ _payload p = _payload q /\
   underlying_packet p = underlying_packet q) /\
  (LayersTransportTcp.__eq__ p (ObjTcpPacket q) = PyBool true <->
   __dest_port p = __dest_port q /\ __source_port p = __source_port q /\
   __sequence_number p = __sequence_number q /\
   __ack_number p = __ack_number q /\ __flags p = __flags q /\
   __win_size p = __win_size q /\ __urg_pointer p = __urg_pointer q /\
   __options p = __options q /\ _payload p = _payload q /\
   upper_layer p = upper_layer q) /\
  LayersTcp.__eq__ p (ObjTcpPacket p) = PyBool true /\
  LayersTransportTcp.__eq__ p (ObjTcpPacket p) = PyBool true.
Proof.
  assert (Hb : forall b, PyBool b = PyBool true <-> b = true).
  { intros b. split; [intros H; injection H as ->; reflexivity | intros ->; reflexivity]. }
  assert (H1 : forall p q,
             LayersTcp.__eq__ p (ObjTcpPacket q) = PyBool true <->
             __dest_port p = __dest_port q /\ __source_port p = __source_port q /\
             __sequence_number p = __sequence_number q /\
             __ack_number p = __ack_number q /\ __flags p = __flags q /\
             __win_size p = __win_size q /\ __urg_pointer p = __urg_pointer q /\
             __options p = __options q /\ _payload p = _payload q /\
             underlying_packet p = underlying_packet q).
  { intros p' q'. destruct (eq_packets p' q') as [E _]. rewrite E, Hb.
    rewrite andb_true_iff, same_fields_eq, Layer_eqb_eq. tauto. }
  assert (H2 : forall p q,
             LayersTransportTcp.__eq__ p (ObjTcpPacket q) = PyBool true <->
             __dest_port p = __dest_port q /\ __source_port p = __source_port q /\
             __sequence_number p = __sequence_number q /\
             __ack_number p = __ack_number q /\ __flags p = __flags q /\
             __win_size p = __win_size q /\ __urg_pointer p = __urg_pointer q /\
             __options p = __options q /\ _payload p = _payload q /\
             upper_layer p = upper_layer q).
  { intros p' q'. destruct (eq_packets p' q') as [_ E]. rewrite E, Hb.
    rewrite andb_true_iff, same_fields_eq, Layer_eqb_eq. tauto. }
  split; [apply H1|]. split; [apply H2|].
  split; [apply H1 | apply H2]; repeat split; reflexivity.
Qed.

(** ** Serialization: what a success implies *)

Lemma pack_length (fs : list Struct.fmt) :
  forall (args : list Struct.arg) (bs : list byte),
    Struct.pack fs args = Ok bs -> length bs = Struct.calcsize fs.
Proof.
  induction fs as [|f fs IH]; intros [|a args] bs H; cbn [Struct.pack] in H;
    try discriminate H.
  - apply ok_inj in H. subst bs. reflexivity.
  - apply bind_ok_inv in H. destruct H as [hd [Hhd H]].
    apply bind_ok_inv in H. destruct H as [tl [Htl H]].
    apply ok_inj in H. subst bs.
    rewrite length_app, (IH _ _ Htl). cbn [Struct.calcsize fold_right].
    f_equal.
    destruct f, a; cbn [Struct.pack1 Struct.width] in *; try discriminate Hhd;
      try (apply pack_uint_inv in Hhd; destruct Hhd as [_ ->];
           apply be_bytes_length).
    apply ok_inj in Hhd. subst hd. unfold Struct.pack_bytes.
    rewrite length_app, repeat_length, length_firstn. lia.
Qed.

Lemma calc_checksum_ok_even (bs : list byte) (checksum : Z) :
  Utils.calc_checksum bs = Ok checksum -> Nat.even (length bs) = true.
Proof.
  intros H. rewrite calc_checksum_paired in H.
  destruct (Nat.even (length bs)) eqn:Hev; [reflexivity|].
  rewrite (paired_sum_odd (length bs)) in H.
  - discriminate H.
  - lia.
  - rewrite <- Nat.negb_even, Hev. reflexivity.
Qed.

(** What a successful serialization says about the packet and about the
    bytes, in the first implementation. *)
Lemma to_bytes_inv (medium : LengthConstraint) (p : TcpPacket)
      (packet : list byte) :
  LayersTcp.to_bytes medium p = Ok packet ->
  exists (options_bytes : list byte) (ip : IpPacket) (c0 c1 : byte),
    TcpOptions.to_bytes (__options p) = Ok options_bytes /\
    Z.of_nat (length options_bytes) mod 4 = 0 /\
    header_fields_fit p options_bytes /\
    underlying_packet p = IpLayer ip /\
    length_allowed medium (length packet) = true /\
    packet = segment_layout p options_bytes c0 c1.
Proof.
  intros H. unfold LayersTcp.to_bytes in H.
  apply bind_ok_inv in H. destruct H as [options_bytes [Hopt H]].
  apply bind_ok_inv in H. destruct H as [[] [Hassert H]].
  unfold py_assert in Hassert.
  destruct (Z.eqb_spec (Z.of_nat (length options_bytes) mod 4) 0) as [Hal|];
    [clear Hassert | discriminate Hassert].
  cbv zeta in H. unfold TcpUtils.TCP_HEADER_LENGTH in H.
  unfold header_fields_fit, segment_layout.
  remember (Z.lor (Z.shiftl (5 + Z.of_nat (length options_bytes) / 4) 12)
                  (flags (__flags p))) as data_offset_flags eqn:Efield.
  apply bind_ok_inv in H. destruct H as [header_buffer [Hhdr H]].
  apply pack_into_header in Hhdr. destruct Hhdr as [Hranges ->].
  destruct Hranges as (Hsp & Hdp & Hsq & Hak & Hdof & Hwin & _ & Hurg).
  apply bind_ok_inv in H. destruct H as [pseudo_header [Hps H]].
  unfold LayersTcp.__get_pseudo_header in Hps.
  destruct (underlying_packet p) as [|ip|] eqn:Hip; try discriminate Hps.
  apply bind_ok_inv in H. destruct H as [checksum [_ H]].
  apply bind_ok_inv in H. destruct H as [checksum_bytes [Hcb H]].
  unfold int_to_bytes in Hcb.
  destruct ((0 <=? checksum) && (checksum <? 2 ^ (8 * Z.of_nat 2)));
    [apply ok_inj in Hcb; subst checksum_bytes | discriminate Hcb].
  cbn [be_bytes app getitem nth_error bind] in H.
  rewrite setitem_byte in H by (cbn; lia).
  cbn [replace_nth bind] in H.
  rewrite setitem_byte in H by (cbn; lia).
  cbn [replace_nth bind] in H.
  unfold TcpUtils.validate_packet_length in H.
  destruct (length_allowed medium _) eqn:Hmed; [|discriminate H].
  apply ok_inj in H. subst packet. subst data_offset_flags.
  exists options_bytes, ip, (byte_of_Z (Z.shiftr checksum 8)), (byte_of_Z checksum).
  split; [exact Hopt|]. split; [exact Hal|].
  split; [repeat split; lia|]. split; [reflexivity|].
  split; [exact Hmed | reflexivity].
Qed.

(** The same for the second implementation, whose checksum is that of
    [Utils]: the payload then has an even number of bytes. *)
Lemma to_bytes_inv_transport (medium : LengthConstraint) (p : TcpPacket)
      (packet : list byte) :
  LayersTransportTcp.to_bytes medium p = Ok packet ->
  exists (options_bytes : list byte) (ip : IpPacket) (c0 c1 : byte),
    TcpOptions.to_bytes (__options p) = Ok options_bytes /\
    Z.of_nat (length options_bytes) mod 4 = 0 /\
    header_fields_fit p options_bytes /\
    underlying_packet p = IpLayer ip /\
    Nat.even (length (_payload p)) = true /\
    length_allowed medium (length packet) = true /\
    packet = segment_layout p options_bytes c0 c1.
Proof.
  intros H. unfold LayersTransportTcp.to_bytes in H.
  apply bind_ok_inv in H. destruct H as [options_bytes [Hopt H]].
  apply bind_ok_inv in H. destruct H as [[] [Hassert H]].
  unfold py_assert in Hassert.
  destruct (Z.eqb_spec (Z.of_nat (length options_bytes) mod 4) 0) as [Hal|];
    [clear Hassert | discriminate Hassert].
  cbv zeta in H. unfold TcpUtils.TCP_HEADER_LENGTH in H.
  unfold header_fields_fit, segment_layout.
  remember (Z.lor (Z.shiftl (5 + Z.of_nat (length options_bytes) / 4) 12)
                  (flags (__flags p))) as data_offset_flags eqn:Efield.
  apply bind_ok_inv in H. destruct H as [header_buffer [Hhdr H]].
  change LayersTransportTcp.TCP_HEADER_FORMAT with LayersTcp.TCP_HEADER_FORMAT
    in Hhdr.
  apply pack_into_header in Hhdr. destruct Hhdr as [Hranges ->].
  destruct Hranges as (Hsp & Hdp & Hsq & Hak & Hdof & Hwin & _ & Hurg).
  apply bind_ok_inv in H. destruct H as [pseudo_header [Hps H]].
  unfold TransportLayerUtils.get_pseudo_header in Hps.
  destruct (underlying_packet p) as [|ip|] eqn:Hip; try discriminate Hps.
  apply pack_length in Hps.
  apply bind_ok_inv in H. destruct H as [checksum [Hck H]].
  apply calc_checksum_ok_even in Hck.
  apply bind_ok_inv in H. destruct H as [checksum_bytes [Hcb H]].
  unfold int_to_bytes in Hcb.
  destruct ((0 <=? checksum) && (checksum <? 2 ^ (8 * Z.of_nat 2)));
    [apply ok_inj in Hcb; subst checksum_bytes | discriminate Hcb].
  cbn [be_bytes app getitem nth_error bind] in H.
  rewrite setitem_byte in H by (cbn; lia).
  cbn [replace_nth bind] in H.
  rewrite setitem_byte in H by (cbn; lia).
  cbn [replace_nth bind] in H.
  unfold TransportLayerUtils.validate_packet_length in H.
  destruct (length_allowed medium _) eqn:Hmed; [|discriminate H].
  apply ok_inj in H. subst packet. subst data_offset_flags.
  exists options_bytes, ip, (byte_of_Z (Z.shiftr checksum 8)), (byte_of_Z checksum).
  split; [exact Hopt|]. split; [exact Hal|].
  split; [repeat split; lia|]. split; [reflexivity|].
  split.
  - rewrite !length_app, Hps in Hck.
    rewrite !be_bytes_length in Hck.
    cbn [Struct.calcsize TransportLayerUtils.PSEUDO_HEADER_FORMAT fold_right
         Struct.width] in Hck.
    assert (Ho : Nat.even (length options_bytes) = true).
    { assert (Hm : (length options_bytes mod 4 = 0)%nat).
      { apply Nat2Z.inj. rewrite Nat2Z.inj_mod. exact Hal. }
      pose proof (Nat.div_mod_eq (length options_bytes) 4) as Hd.
      rewrite Hm, Nat.add_0_r in Hd. rewrite Hd, Nat.even_mul. reflexivity. }
    replace (4 + (4 + (1 + (1 + (2 + 0))))
             + (2 + (2 + (4 + (4 + (2 + (2 + (2 + 2))))))
                + (length options_bytes + length (_payload p))))%nat
      with (2 * 16 + (length options_bytes + length (_payload p)))%nat
      in Hck by lia.
    rewrite !Nat.even_add, Nat.even_mul, Ho in Hck. cbn in Hck.
    destruct (Nat.even (length (_payload p))); [reflexivity | discriminate Hck].
  - split; [exact Hmed | reflexivity].
Qed.

(** Parsing the bytes of a segment. *)
Lemma from_bytes_layout (p : TcpPacket) (options_bytes : list byte)
      (c0 c1 : byte) :
  valid_flags p ->
  header_fields_fit p options_bytes ->
  Z.of_nat (length options_bytes) mod 4 = 0 ->
  LayersTcp.from_bytes (segment_layout p options_bytes c0 c1)
  = (options <- TcpOptions.from_bytes options_bytes ;; Ok (parsed p options)).
Proof.
  intros Hvalid Hfit Hal. unfold valid_flags in Hvalid.
  unfold header_fields_fit in Hfit. unfold segment_layout.
  set (data_offset := 5 + Z.of_nat (length options_bytes) / 4) in *.
  destruct Hfit as (Hsp & Hdp & Hsq & Hak & Hdof & Hwin & Hurg).
  remember (Z.lor (Z.shiftl data_offset 12) (flags (__flags p)))
    as data_offset_flags eqn:Efield.
  cbn [be_bytes app]. rewrite from_bytes_header. cbv zeta.
  assert (Hdo : 0 <= data_offset).
  { unfold data_offset.
    assert (0 <= Z.of_nat (length options_bytes) / 4) by (apply Z.div_pos; lia).
    lia. }
  rewrite !be_value_2 by assumption.
  rewrite !be_value_4 by assumption.
  subst data_offset_flags.
  rewrite field_reserved_bits by assumption.
  rewrite field_data_offset by assumption.
  rewrite field_flags by assumption.
  cbn [Z.eqb negb].
  assert (Hlen : (data_offset - 5) * 4 = Z.of_nat (length options_bytes)).
  { unfold data_offset.
    pose proof (Z.div_mod (Z.of_nat (length options_bytes)) 4 ltac:(lia)). lia. }
  rewrite Hlen.
  destruct (slices_of_app options_bytes (_payload p)) as [-> ->].
  destruct (TcpOptions.from_bytes options_bytes) as [options|e];
    [cbn [bind] | reflexivity].
  rewrite init_ok_iff.
  assert (Hports : (0 <=? __source_port p) && (__source_port p <=? 65535)
                   && ((0 <=? __dest_port p) && (__dest_port p <=? 65535)) = true).
  { rewrite !andb_true_iff, !Z.leb_le. lia. }
  rewrite Hports, from_int_flags by assumption. reflexivity.
Qed.

(** X13: a serialization only succeeds on a packet whose underlying
    packet is an IP packet; with no underlying packet, or one of another
    class, [to_bytes] returns no bytes. *)
Theorem to_bytes_needs_ip_packet (medium : LengthConstraint) (p : TcpPacket)
        (packet : list byte) :
  LayersTcp.to_bytes medium p = Ok packet ->
  exists ip : IpPacket, underlying_packet p = IpLayer ip.
Proof.
  intros H. apply to_bytes_inv in H.
  destruct H as (ob & ip & c0 & c1 & _ & _ & _ & Hip & _). eauto.
Qed.

Lemma to_bytes_needs_ip_packet_witness :
  exists ip : IpPacket, underlying_packet scenario_packet = IpLayer ip.
Proof.
  refine (to_bytes_needs_ip_packet ip_medium scenario_packet scenario_bytes _).
  vm_compute. reflexivity.
Defined.

Lemma lor_shiftl_12_bound (d f : Z) :
  0 <= d -> 0 <= Z.lor (Z.shiftl d 12) f < 65536 -> d < 16 /\ 0 <= f < 65536.
Proof.
  intros Hd [Hlo Hhi].
  assert (Hs : 0 <= Z.shiftl d 12) by (apply Z.shiftl_nonneg; exact Hd).
  assert (Hf : 0 <= f) by (apply Z.lor_nonneg in Hlo; tauto).
  assert (Hbnd : forall a b, 0 <= a -> 0 <= b -> Z.lor a b < 65536 ->
                             a < 65536 /\ b < 65536).
  { intros a b Ha Hb Hab.
    assert (Hl : forall x, 0 <= x -> x < 65536 <-> (x = 0 \/ Z.log2 x < 16)).
    { intros x Hx. destruct (Z.eq_dec x 0) as [->|Hx0]; [split; [auto | lia]|].
      change 65536 with (2 ^ 16). rewrite (Z.log2_lt_pow2 x 16) by lia. tauto. }
    assert (Hor : Z.lor a b = 0 \/ Z.log2 (Z.lor a b) < 16).
    { apply Hl; [apply Z.lor_nonneg; auto | exact Hab]. }
    destruct Hor as [H0|Hlog].
    - apply Z.lor_eq_0_iff in H0. lia.
    - rewrite Z.log2_lor in Hlog by assumption.
      split; apply Hl; try assumption; right; lia. }
  destruct (Hbnd _ _ Hs Hf Hhi) as [Ha Hb].
  rewrite Z.shiftl_mul_pow2 in Ha by lia. change (2 ^ 12) with 4096 in Ha.
  lia.
Qed.

(** X14: a serialization only succeeds when every header field fits its
    width: ports, window size and urgent pointer in 16 bits, sequence
    and acknowledgment numbers in 32 bits, the flags non-negative, and
    the encoded options in at most 40 bytes, so that the data offset
    fits its 4 bits; otherwise [struct.pack_into] refuses the header. *)
Theorem to_bytes_fields_fit (medium : LengthConstraint) (p : TcpPacket)
        (packet : list byte) :
  LayersTcp.to_bytes medium p = Ok packet ->
  0 <= __source_port p <= 65535 /\
  0 <= __dest_port p <= 65535 /\
  0 <= __sequence_number p <= 4294967295 /\
  0 <= __ack_number p <= 4294967295 /\
  0 <= flags (__flags p) <= 65535 /\
  0 <= __win_size p <= 65535 /\
  0 <= __urg_pointer p <= 65535 /\
  exists options_bytes : list byte,
    TcpOptions.to_bytes (__options p) = Ok options_bytes /\
    (length options_bytes <= 40)%nat.
Proof.
  intros H. apply to_bytes_inv in H.
  destruct H as (ob & ip & c0 & c1 & Hopt & Hal & Hr & _).
  unfold header_fields_fit in Hr.
  destruct Hr as (Hsp & Hdp & Hsq & Hak & Hdof & Hwin & Hurg).
  assert (Hq : 0 <= Z.of_nat (length ob) / 4) by (apply Z.div_pos; lia).
  apply lor_shiftl_12_bound in Hdof; [|lia].
  repeat split; try lia.
  exists ob. split; [exact Hopt|].
  pose proof (Z.div_mod (Z.of_nat (length ob)) 4 ltac:(lia)). lia.
Qed.

Lemma to_bytes_fields_fit_witness :
  0 <= __source_port scenario_packet <= 65535 /\
  0 <= __sequence_number scenario_packet <= 4294967295.
Proof.
  pose proof (to_bytes_fields_fit ip_medium scenario_packet scenario_bytes
                ltac:(vm_compute; reflexivity)) as H.
  split; [exact (proj1 H) | exact (proj1 (proj2 (proj2 H)))].
Defined.

(** X15: the implementation of layers.transport.tcp does not serialize a
    packet whose payload has an odd number of bytes: the checksum input
    is then of odd length and [calc_checksum] raises, so a success
    implies an even payload. *)
Theorem to_bytes_needs_even_payload (medium : LengthConstraint) (p : TcpPacket)
        (packet : list byte) :
  LayersTransportTcp.to_bytes medium p = Ok packet ->
  Nat.even (length (_payload p)) = true.
Proof.
  intros H. apply to_bytes_inv_transport in H.
  destruct H as (ob & ip & c0 & c1 & _ & _ & _ & _ & Hev & _). exact Hev.
Qed.

Lemma to_bytes_needs_even_payload_witness :
  Nat.even (length (_payload scenario_packet)) = true.
Proof.
  refine (to_bytes_needs_even_payload ip_medium scenario_packet scenario_bytes _).
  vm_compute. reflexivity.
Defined.

(** X16: the bytes of a serialized packet with a 9-bit flag set are 20
    header bytes, then the encoded options, then the payload, and
    nothing else: their number is 20 plus the options length plus the
    payload length and the medium allows it; the header starts with the
    two ports, the sequence and the acknowledgment number in network
    byte order; the offset/flags field of the output carries the data
    offset 5 + options words in its top 4 bits, zero reserved bits and
    the flags in its low 9 bits. *)
Theorem to_bytes_layout (medium : LengthConstraint) (p : TcpPacket)
        (packet : list byte) :
  valid_flags p ->
  LayersTcp.to_bytes medium p = Ok packet ->
  exists (options_bytes header : list byte) (field : Z),
    TcpOptions.to_bytes (__options p) = Ok options_bytes /\
    length header = 20%nat /\
    packet = header ++ options_bytes ++ _payload p /\
    firstn 12 header
    = be_bytes 2 (__source_port p) ++ be_bytes 2 (__dest_port p)
      ++ be_bytes 4 (__sequence_number p) ++ be_bytes 4 (__ack_number p) /\
    firstn 2 (skipn 14 header) = be_bytes 2 (__win_size p) /\
    skipn 18 header = be_bytes 2 (__urg_pointer p) /\
    length packet = (20 + length options_bytes + length (_payload p))%nat /\
    length_allowed medium (length packet) = true /\
    firstn (length options_bytes) (skipn 20 packet) = options_bytes /\
    skipn (20 + length options_bytes) packet = _payload p /\
    offset_flags_field packet = Some field /\
    4 * data_offset_of field = 20 + Z.of_nat (length options_bytes) /\
    reserved_bit_set field = false /\
    Z.land field 511 = flags (__flags p).
Proof.
  intros Hfl H. unfold valid_flags in Hfl. apply to_bytes_inv in H.
  destruct H as (ob & ip & c0 & c1 & Hopt & Hal & Hr & _ & Hmed & ->).
  unfold header_fields_fit in Hr. destruct Hr as (_ & _ & _ & _ & Hdof & _).
  assert (Hq : 0 <= 5 + Z.of_nat (length ob) / 4).
  { assert (0 <= Z.of_nat (length ob) / 4) by (apply Z.div_pos; lia). lia. }
  unfold segment_layout in *.
  remember (Z.lor (Z.shiftl (5 + Z.of_nat (length ob) / 4) 12)
                  (flags (__flags p))) as field eqn:Efield.
  exists ob,
    (be_bytes 2 (__source_port p) ++ be_bytes 2 (__dest_port p)
     ++ be_bytes 4 (__sequence_number p) ++ be_bytes 4 (__ack_number p)
     ++ be_bytes 2 field ++ be_bytes 2 (__win_size p) ++ [c0; c1]
     ++ be_bytes 2 (__urg_pointer p)),
    field.
  split; [exact Hopt|].
  split; [rewrite !length_app, !be_bytes_length; reflexivity|].
  split; [rewrite <- !app_assoc; reflexivity|].
  split; [reflexivity|]. split; [reflexivity|]. split; [reflexivity|].
  split.
  { rewrite !length_app, !be_bytes_length. cbn [length]. lia. }
  split; [exact Hmed|].
  split.
  { cbn [be_bytes app]. cbn [skipn].
    rewrite firstn_app, firstn_all, Nat.sub_diag. cbn [firstn].
    apply app_nil_r. }
  split.
  { cbn [be_bytes app]. cbn [Nat.add skipn].
    rewrite skipn_app, skipn_all, Nat.sub_diag. reflexivity. }
  split.
  { cbn [be_bytes app offset_flags_field skipn]. f_equal.
    apply be_value_2. exact Hdof. }
  subst field. unfold data_offset_of.
  rewrite field_data_offset, field_flags by assumption.
  split; [pose proof (Z.div_mod (Z.of_nat (length ob)) 4 ltac:(lia)); lia|].
  split; [|reflexivity].
  apply reserved_bits_zero. apply field_reserved_bits; assumption.
Qed.

Lemma to_bytes_layout_witness :
  exists (options_bytes header : list byte) (field : Z),
    TcpOptions.to_bytes (__options scenario_packet) = Ok options_bytes /\
    length header = 20%nat /\
    scenario_bytes = header ++ options_bytes ++ _payload scenario_packet /\
    firstn 12 header
    = be_bytes 2 (__source_port scenario_packet)
      ++ be_bytes 2 (__dest_port scenario_packet)
      ++ be_bytes 4 (__sequence_number scenario_packet)
      ++ be_bytes 4 (__ack_number scenario_packet) /\
    firstn 2 (skipn 14 header) = be_bytes 2 (__win_size scenario_packet) /\
    skipn 18 header = be_bytes 2 (__urg_pointer scenario_packet) /\
    length scenario_bytes
    = (20 + length options_bytes + length (_payload scenario_packet))%nat /\
    length_allowed ip_medium (length scenario_bytes) = true /\
    firstn (length options_bytes) (skipn 20 scenario_bytes) = options_bytes /\
    skipn (20 + length options_bytes) scenario_bytes = _payload scenario_packet /\
    offset_flags_field scenario_bytes = Some field /\
    4 * data_offset_of field = 20 + Z.of_nat (length options_bytes) /\
    reserved_bit_set field = false /\
    Z.land field 511 = flags (__flags scenario_packet).
Proof.
  refine (to_bytes_layout ip_medium scenario_packet scenario_bytes _ _).
  - vm_compute. split; [discriminate | reflexivity].
  - vm_compute. reflexivity.
Defined.

(** X17: a packet whose header fields fit their widths, with a 9-bit
    flag set, options that need no padding and are read back as written
    (at most 40 bytes), a payload of even length, an underlying IP
    packet and a length the medium allows, is serialized by each of the
    two implementations, and parsing the bytes either of them returns
    gives the packet back, without its links to the neighbouring layers.
    The two serializations can differ in the checksum field. *)
Theorem roundtrip_of_well_formed_packet (medium : LengthConstraint)
        (p : TcpPacket) (ip : IpPacket) (options_bytes : list byte) :
  0 <= __source_port p < 65536 ->
  0 <= __dest_port p < 65536 ->
  0 <= __sequence_number p < 4294967296 ->
  0 <= __ack_number p < 4294967296 ->
  valid_flags p ->
  0 <= __win_size p < 65536 ->
  0 <= __urg_pointer p < 65536 ->
  wire_stable (__options p) = true ->
  needs_no_padding (__options p) ->
  TcpOptions.to_bytes (__options p) = Ok options_bytes ->
  (length options_bytes <= 40)%nat ->
  Nat.even (length (_payload p)) = true ->
  underlying_packet p = IpLayer ip ->
  0 <= protocol ip < 256 ->
  20 + Z.of_nat (length options_bytes) + Z.of_nat (length (_payload p)) < 65536 ->
  length_allowed medium (20 + length options_bytes + length (_payload p)) = true ->
  (exists packet : list byte,
      LayersTcp.to_bytes medium p = Ok packet /\
      LayersTcp.from_bytes packet = Ok (parsed p (__options p))) /\
  (exists packet : list byte,
      LayersTransportTcp.to_bytes medium p = Ok packet /\
      LayersTransportTcp.from_bytes packet = Ok (parsed p (__options p))).
Proof.
  intros Hsp Hdp Hsq Hak Hfl Hwin Hurg Hst Hpad Hopt Hlen Hev Hip Hproto Hseg Hmed.
  split.
  - destruct (to_bytes_succeeds medium p ip options_bytes) as [packet Hpk];
      try assumption.
    exists packet. split; [exact Hpk|].
    rewrite (from_bytes_to_bytes medium p packet Hfl Hpk).
    rewrite (wire_stable_roundtrip _ Hst Hpad). reflexivity.
  - destruct (to_bytes_succeeds_even medium p ip options_bytes) as [packet Hpk];
      try assumption.
    exists packet. split; [exact Hpk|].
    apply to_bytes_inv_transport in Hpk.
    destruct Hpk as (ob & ip' & c0 & c1 & Hob & Hal & Hfit & _ & _ & _ & ->).
    rewrite from_bytes_same, from_bytes_layout by assumption.
    pose proof (wire_stable_roundtrip _ Hst Hpad) as Hw.
    unfold options_on_the_wire in Hw. rewrite Hob in Hw. cbn [bind] in Hw.
    rewrite Hw. reflexivity.
Qed.

Lemma roundtrip_of_well_formed_packet_witness :
  (exists packet : list byte,
      LayersTcp.to_bytes ip_medium scenario_packet = Ok packet /\
      LayersTcp.from_bytes packet
      = Ok (parsed scenario_packet (__options scenario_packet))) /\
  (exists packet : list byte,
      LayersTransportTcp.to_bytes ip_medium scenario_packet = Ok packet /\
      LayersTransportTcp.from_bytes packet
      = Ok (parsed scenario_packet (__options scenario_packet))).
Proof.
  refine (roundtrip_of_well_formed_packet ip_medium scenario_packet scenario_ip
            (skipn 20 scenario_bytes) _ _ _ _ _ _ _ _ _ _ _ _ _ _ _ _);
    try (vm_compute; split; [discriminate | reflexivity]);
    try (vm_compute; reflexivity).
  - eexists. split; vm_compute; reflexivity.
  - cbn. lia.
Defined.
